(** * validate.py: the addon repository validator

    A shallow embedding of [validate.py] (the index loader
    [validate_addons_json], the per-addon checker [validate_addon_directory],
    the reporter [error] and the driver [main]) together with the properties
    its specification states about them.

    Python values are the ones [json.load] can build, strings are sequences
    of Unicode code points, printing appends to an explicit output log or
    raises when standard output cannot encode the text, and a Python
    exception that nothing catches is an explicit outcome. *)

From Stdlib Require Import List Bool NArith ZArith String Ascii Lia.
From Stdlib Require Import DecimalString.
Import ListNotations.

Set Implicit Arguments.
#[local] Set Warnings "-register-all".

(* ================================================================= *)
(** ** Python strings *)

(** A Python [str] is a sequence of code points. *)
Definition pystr := list N.

(** An ASCII literal of the source text. *)
Definition lit (s : string) : pystr :=
  List.map N_of_ascii (list_ascii_of_string s).

Fixpoint pystr_eqb (a b : pystr) : bool :=
  match a, b with
  | [], [] => true
  | x :: a', y :: b' => N.eqb x y && pystr_eqb a' b'
  | _, _ => false
  end.

Fixpoint startswith (s prefix : pystr) : bool :=
  match prefix, s with
  | [], _ => true
  | p :: prefix', c :: s' => N.eqb p c && startswith s' prefix'
  | _ :: _, [] => false
  end.

(** [needle in haystack] on two strings: substring search. *)
Fixpoint str_contains (haystack needle : pystr) : bool :=
  startswith haystack needle ||
  match haystack with
  | [] => false
  | _ :: rest => str_contains rest needle
  end.

Definition endswith_char (s : pystr) (c : N) : bool :=
  match rev s with
  | [] => false
  | x :: _ => N.eqb x c
  end.

(** [str(n)] for an integer. *)
Definition str_of_Z (z : Z) : pystr :=
  lit (NilEmpty.string_of_int (Z.to_int z)).

Definition LF : N := 10%N.
Definition SLASH : N := 47%N.
Definition UNDERSCORE : N := 95%N.

(** [os.path.join(a, b)] of posixpath, for two components. *)
Definition path_join (a b : pystr) : pystr :=
  if startswith b [SLASH] then b
  else match a with
       | [] => b
       | _ => if endswith_char a SLASH then a ++ b else a ++ [SLASH] ++ b
       end.

(* ================================================================= *)
(** ** Python values built by [json.load] *)

Inductive pyfloat : Type :=
| FFinite (mantissa exponent : Z)      (* mantissa * 2^exponent *)
| FInfinity (negative : bool)
| FNaN.

Inductive pyvalue : Type :=
| PNone
| PBool (b : bool)
| PInt (z : Z)
| PFloat (f : pyfloat)
| PStr (s : pystr)
| PList (items : list pyvalue)
| PDict (entries : list (pystr * pyvalue)).   (* insertion order, keys are str *)

Definition pydict := list (pystr * pyvalue).

Inductive exn : Type :=
| TypeError
| AttributeError
| KeyError
| OSError              (* open() failed: a directory, no permission *)
| UnicodeDecodeError   (* the file is not UTF-8 *)
| UnicodeEncodeError (text : pystr).
                       (* standard output cannot encode [text] *)

(** Truth value testing, [bool(v)]. *)
Definition truthy (v : pyvalue) : bool :=
  match v with
  | PNone => false
  | PBool b => b
  | PInt z => negb (Z.eqb z 0)
  | PFloat (FFinite m _) => negb (Z.eqb m 0)
  | PFloat _ => true
  | PStr s => match s with [] => false | _ => true end
  | PList l => match l with [] => false | _ => true end
  | PDict d => match d with [] => false | _ => true end
  end.

Fixpoint dict_get (d : pydict) (k : pystr) : option pyvalue :=
  match d with
  | [] => None
  | (k', v) :: rest => if pystr_eqb k' k then Some v else dict_get rest k
  end.

Definition dict_has (d : pydict) (k : pystr) : bool :=
  match dict_get d k with Some _ => true | None => false end.

Definition is_str_equal_to (k : pystr) (v : pyvalue) : bool :=
  match v with PStr s => pystr_eqb s k | _ => false end.

Definition isinstance_dict (v : pyvalue) : bool :=
  match v with PDict _ => true | _ => false end.

Definition isinstance_list (v : pyvalue) : bool :=
  match v with PList _ => true | _ => false end.

Definition isinstance_str (v : pyvalue) : bool :=
  match v with PStr _ => true | _ => false end.

(* ================================================================= *)
(** ** Output log and control flow *)

Inductive stream : Type := Stdout | Stderr.

(** One [print] call: the stream and the text written to it (the trailing
    line feed included). *)
Definition write : Type := (stream * pystr)%type.
Definition output := list write.

(** Number of lines a write puts on its stream. *)
Definition lines_of (w : write) : nat := count_occ N.eq_dec (snd w) LF.

(** How a statement ends: it falls through to the next one, it returns
    from the enclosing function, or it raises. *)
Inductive flow (R A : Type) : Type :=
| Next (a : A)
| Return (r : R)
| Raise (e : exn).

Arguments Next {R A} a.
Arguments Return {R A} r.
Arguments Raise {R A} e.

Definition body (R A : Type) : Type := output -> flow R A * output.

Definition next {R A} (a : A) : body R A := fun out => (Next a, out).
Definition return_ {R A} (r : R) : body R A := fun out => (Return r, out).
Definition raise {R A} (e : exn) : body R A := fun out => (Raise e, out).

Definition bind {R A B} (m : body R A) (k : A -> body R B) : body R B :=
  fun out =>
    match m out with
    | (Next a, out') => k a out'
    | (Return r, out') => (Return r, out')
    | (Raise e, out') => (Raise e, out')
    end.

Declare Scope py_scope.
Delimit Scope py_scope with py.
Notation "x <- m ;; k" := (bind m (fun x => k))
  (at level 100, m at next level, right associativity) : py_scope.
Notation "m ;; k" := (bind m (fun _ => k))
  (at level 100, right associativity) : py_scope.
Open Scope py_scope.

(** The result of a call: a value or an exception that left the callee. *)
Inductive result (A : Type) : Type :=
| Value (a : A)
| Raised (e : exn).

Arguments Value {A} a.
Arguments Raised {A} e.

(** Lift the result of an expression into a statement sequence. *)
Definition eval {R A} (r : result A) : body R A :=
  match r with
  | Value a => next a
  | Raised e => raise e
  end.

(** A function whose body is [b]. *)
Definition def {R} (b : body R R) : output -> result R * output :=
  fun out =>
    match b out with
    | (Next r, out') => (Value r, out')
    | (Return r, out') => (Value r, out')
    | (Raise e, out') => (Raised e, out')
    end.

(** Call a function from inside another body. *)
Definition call {R A} (f : output -> result A * output) : body R A :=
  fun out =>
    match f out with
    | (Value a, out') => (Next a, out')
    | (Raised e, out') => (Raise e, out')
    end.

(** [try: b except Exception as e: handler e]: a [return] inside [b]
    leaves the function, an exception raised in [b] runs the handler. *)
Definition try_except {R A} (b : body R A) (handler : exn -> body R A)
  : body R A :=
  fun out =>
    match b out with
    | (Raise e, out') => handler e out'
    | r => r
    end.

(** The text holds only code points the encoder accepts. *)
Definition encodable (encodes : N -> bool) (text : pystr) : bool :=
  forallb encodes text.

Section Validate.

(** The encoder of standard output, whose error handler is [strict]: the
    code points it can encode (with UTF-8, every code point but the
    surrogates). *)
Variable stdout_encodes : N -> bool.

(** [print(text)]: the text is encoded as a whole before any of it is
    written, so a text the stream cannot encode raises
    [UnicodeEncodeError] and writes nothing.  The line terminator is
    taken to be encodable. *)
Definition print {R} (text : pystr) : body R unit :=
  fun out =>
    if encodable stdout_encodes text
    then (Next tt, out ++ [(Stdout, text ++ [LF])])
    else (Raise (UnicodeEncodeError text), out).

(** [print(text, file=sys.stderr)]: the error handler of the error stream
    is [backslashreplace], which encodes every text. *)
Definition print_stderr {R} (text : pystr) : body R unit :=
  fun out => (Next tt, out ++ [(Stderr, text ++ [LF])]).

(* ================================================================= *)
(** ** The reporter *)

(** An optional string argument as a value: the string, or [None]. *)
Definition py_opt (o : option pystr) : pyvalue :=
  match o with Some s => PStr s | None => PNone end.

Definition some_str_truthy (o : option pystr) : bool :=
  match o with Some (_ :: _) => true | _ => false end.

Definition some_int_truthy (o : option Z) : bool :=
  match o with Some z => negb (Z.eqb z 0) | None => false end.

Definition fmt_opt_str (o : option pystr) : pystr :=
  match o with Some s => s | None => lit "None" end.

Definition fmt_opt_int (o : option Z) : pystr :=
  match o with Some z => str_of_Z z | None => lit "None" end.

(** The [location] string that [error] builds. *)
Definition location (file : option pystr) (line col : option Z) : pystr :=
  let location := [] in
  let location :=
    if some_str_truthy file then location ++ lit "file=" ++ fmt_opt_str file
    else location in
  let location :=
    if some_int_truthy line then location ++ lit ",line=" ++ fmt_opt_int line
    else location in
  let location :=
    if some_int_truthy col then location ++ lit ",col=" ++ fmt_opt_int col
    else location in
  location.

Definition annotation (message : pystr) (file : option pystr)
    (line col : option Z) : pystr :=
  match location file line col with
  | [] => lit "::error::" ++ message
  | loc => lit "::error " ++ loc ++ lit "::" ++ message
  end.

Definition error {R} (message : pystr) (file : option pystr)
    (line col : option Z) : body R unit :=
  print (annotation message file line col) ;;
  print_stderr (lit "ERROR: " ++ message).

(** The two writes of one [error] call. *)
Definition error_writes (message : pystr) (file : option pystr)
    (line col : option Z) : output :=
  [ (Stdout, annotation message file line col ++ [LF]);
    (Stderr, (lit "ERROR: " ++ message) ++ [LF]) ].

(* ================================================================= *)
(** ** The file system and [json.load] *)

(** [json.JSONDecodeError]: its [msg], [lineno], [colno] and [str(e)]. *)
Record JSONDecodeError : Type := {
  jde_msg : pystr;
  jde_lineno : Z;
  jde_colno : Z;
  jde_str : pystr
}.

(** What [with open(path, 'r', encoding='utf-8') as f: json.load(f)] does
    on a path that exists. *)
Inductive loaded : Type :=
| Parsed (v : pyvalue)
| DecodeError (e : JSONDecodeError)
| LoadRaises (e : exn).

Inductive node : Type :=
| Absent
| Directory
| Regular (content : loaded).

Definition filesystem := pystr -> node.

Definition path_exists (fs : filesystem) (p : pystr) : bool :=
  match fs p with Absent => false | _ => true end.

Definition path_isdir (fs : filesystem) (p : pystr) : bool :=
  match fs p with Directory => true | _ => false end.

Definition json_load (fs : filesystem) (p : pystr) : loaded :=
  match fs p with
  | Regular c => c
  | Directory => LoadRaises OSError     (* IsADirectoryError *)
  | Absent => LoadRaises OSError        (* FileNotFoundError *)
  end.

(* ================================================================= *)
(** ** Operations on values *)

(** [needle in container] for a string needle. *)
Definition py_in (needle : pystr) (container : pyvalue) : result bool :=
  match container with
  | PDict d => Value (dict_has d needle)
  | PList l => Value (existsb (is_str_equal_to needle) l)
  | PStr s => Value (str_contains s needle)
  | _ => Raised TypeError
  end.

(** [d.get(key)] on a dict: the value, or [None] for a key that is absent. *)
Definition get_or_none (d : pydict) (key : pystr) : pyvalue :=
  match dict_get d key with Some v => v | None => PNone end.

(** [obj.get(key)]: only a dict has the method. *)
Definition method_get (obj : pyvalue) (key : pystr) : result pyvalue :=
  match obj with
  | PDict d => Value (get_or_none d key)
  | _ => Raised AttributeError
  end.

(** [obj[key]] for a string key. *)
Definition subscript (obj : pyvalue) (key : pystr) : result pyvalue :=
  match obj with
  | PDict d => match dict_get d key with
               | Some v => Value v
               | None => Raised KeyError
               end
  | _ => Raised TypeError
  end.

(** [obj.items()]: only a dict has the method. *)
Definition method_items (obj : pyvalue) : result pydict :=
  match obj with
  | PDict d => Value d
  | _ => Raised AttributeError
  end.

(** [os.path.join(base, v)]: [v] must be a string. *)
Definition os_path_join (base : pystr) (v : pyvalue) : result pystr :=
  match v with
  | PStr s => Value (path_join base s)
  | _ => Raised TypeError
  end.

(** The version capability: the module [packaging.version] when it could be
    imported.  [parse] gives a version object or raises (the text of the
    exception is kept); [gt] is [>] on version objects. *)
Record version_module (V : Type) : Type := {
  parse : pyvalue -> V + pystr;
  gt : V -> V -> bool
}.

(** How the process ends. *)
Inductive exit_status : Type :=
| Exited (code : Z)
| Traceback (e : exn).   (* an exception nothing caught *)

(** The exit code the interpreter gives the shell: an uncaught exception
    prints a traceback and exits with 1. *)
Definition exit_code (st : exit_status) : Z :=
  match st with
  | Exited c => c
  | Traceback _ => 1%Z
  end.

(** Running statements as the whole process: [sys.exit(code)] ends it with
    [code], the end of the script with 0, an exception nothing catches with
    a traceback. *)
Definition run (m : body Z unit) (out : output) : exit_status * output :=
  match m out with
  | (Next _, out') => (Exited 0, out')
  | (Return code, out') => (Exited code, out')
  | (Raise e, out') => (Traceback e, out')
  end.

(* ================================================================= *)
(** ** The program *)

(** The Unicode tables behind [str.isidentifier]: the derived properties
    XID_Start and XID_Continue of a code point. *)
Variable xid_start : N -> bool.
Variable xid_continue : N -> bool.

(** [str(v)] as an f-string renders a value that is not a string. *)
Variable py_str : pyvalue -> pystr.

(** [str(e)] of an exception, as [{e}] renders it in an f-string. *)
Variable str_exn : exn -> pystr.

(** The module global [version]: [None] when the import of
    [packaging.version] failed (the warning printed at import time is not
    part of [main]). *)
Variable V : Type.
Variable version : option (version_module V).

Variable fs : filesystem.

(** [f"{v}"]. *)
Definition fmt (v : pyvalue) : pystr :=
  match v with
  | PStr s => s
  | _ => py_str v
  end.

(** [s.isidentifier()] on a string. *)
Definition isidentifier (s : pystr) : bool :=
  match s with
  | [] => false
  | first :: rest =>
      (xid_start first || N.eqb first UNDERSCORE) && forallb xid_continue rest
  end.

(** [v.isidentifier()]: only a string has the method. *)
Definition method_isidentifier (v : pyvalue) : result bool :=
  match v with
  | PStr s => Value (isidentifier s)
  | _ => Raised AttributeError
  end.

Definition validate_addons_json (repo_path : pystr)
  : output -> result pyvalue * output :=
  def (
    let json_path := path_join repo_path (lit "addons.json") in
    (if negb (path_exists fs json_path) then
       error (lit "addons.json missing in repository root")
             (Some json_path) None None ;;
       return_ PNone
     else next tt) ;;
    data <-
      match json_load fs json_path with
      | Parsed data => next data
      | DecodeError e =>
          error (lit "Invalid JSON in addons.json: " ++ jde_msg e)
                (Some json_path) (Some (jde_lineno e)) (Some (jde_colno e)) ;;
          return_ PNone
      | LoadRaises e => raise e
      end ;;
    has_addons <- eval (py_in (lit "addons") data) ;;
    bad <-
      (if negb has_addons then next true
       else addons <- eval (subscript data (lit "addons")) ;;
            next (negb (isinstance_list addons))) ;;
    (if bad : bool then
       error (lit "addons.json must contain a top-level 'addons' list")
             (Some json_path) None None ;;
       return_ PNone
     else next tt) ;;
    return_ data).

(** The loop over [required_manifest_fields]. *)
Fixpoint required_fields_check (fields : list pystr) (manifest : pyvalue)
    (manifest_path : pystr) : body bool unit :=
  match fields with
  | [] => next tt
  | field :: rest =>
      present <- eval (py_in field manifest) ;;
      if negb present then
        error (lit "manifest.json missing required field '" ++ field ++ lit "'")
              (Some manifest_path) None None ;;
        return_ false
      else required_fields_check rest manifest manifest_path
  end.

Definition required_manifest_fields : list pystr :=
  [lit "domain"; lit "name"; lit "version"].

(** The block under [# Domain Validation (Simple)]. *)
Definition domain_validation (manifest : pyvalue) (manifest_path : pystr)
  : body bool unit :=
  domain <- eval (method_get manifest (lit "domain")) ;;
  ok <- eval (method_isidentifier domain) ;;
  if negb ok then
    error (lit "Invalid domain '" ++ fmt domain
           ++ lit "'. Must be a valid identifier (alphanumeric, underscore).")
          (Some manifest_path) None None ;;
    return_ false
  else next tt.

(** The loop over [implementations.items()]. *)
Fixpoint implementation_files (items : pydict) (addon_path : pystr)
    (addon_id : pyvalue) : body bool unit :=
  match items with
  | [] => next tt
  | (lang, filename) :: rest =>
      file_path <- eval (os_path_join addon_path filename) ;;
      if negb (path_exists fs file_path) then
        error (lit "Implementation file '" ++ fmt filename ++ lit "' for '"
               ++ lang ++ lit "' not found in '" ++ fmt addon_id ++ lit "'")
              (Some file_path) None None ;;
        return_ false
      else implementation_files rest addon_path addon_id
  end.

(** The block under [# Check Implementations]. *)
Definition check_implementations (manifest : pyvalue)
    (addon_path manifest_path : pystr) (addon_id : pyvalue)
  : body bool unit :=
  implementations <- eval (method_get manifest (lit "implementations")) ;;
  (if negb (truthy implementations) || negb (isinstance_dict implementations)
   then
     if path_exists fs (path_join addon_path (lit "integration.py"))
     then next tt
     else
       error (lit "manifest.json in '" ++ fmt addon_id
              ++ lit "' missing 'implementations' map, and no implicit 'integration.py' found.")
             (Some manifest_path) None None ;;
       return_ false
   else next tt) ;;
  if truthy implementations then
    items <- eval (method_items implementations) ;;
    implementation_files items addon_path addon_id
  else next tt.

(** The block under [# Check Core Version Compatibility].  The two calls
    of [version.parse] are in the [try]: a failure of either is the text of
    its exception; an exception raised by the [error] call in the [try] is
    caught by the same handler. *)
Definition check_core_version (manifest : pyvalue) (manifest_path : pystr)
    (addon_id : pyvalue) (core_version : option pystr) : body bool unit :=
  min_ver <- eval (method_get manifest (lit "min_core_version")) ;;
  match truthy min_ver && some_str_truthy core_version, version with
  | true, Some vm =>
      let failed (e : pystr) : body bool unit :=
        error (lit "Version comparison failed for '" ++ fmt addon_id
               ++ lit "' (min: " ++ fmt min_ver ++ lit ", core: "
               ++ fmt_opt_str core_version ++ lit "): " ++ e)
              (Some manifest_path) None None ;;
        return_ false in
      match parse vm min_ver with
      | inr e => failed e
      | inl a =>
          match parse vm (py_opt core_version) with
          | inr e => failed e
          | inl b =>
              try_except
                (if gt vm a b then
                   error (lit "Addon '" ++ fmt addon_id
                          ++ lit "' requires Core >= " ++ fmt min_ver
                          ++ lit ", but current Core is "
                          ++ fmt_opt_str core_version)
                         (Some manifest_path) None None ;;
                   return_ false
                 else next tt)
                (fun e => failed (str_exn e))
          end
      end
  | _, _ => next tt
  end.

Definition validate_addon_directory (repo_path : pystr) (addon_id : pyvalue)
    (core_version : option pystr) : output -> result bool * output :=
  def (
    addon_path <- eval (os_path_join repo_path addon_id) ;;
    (if negb (path_isdir fs addon_path) then
       error (lit "Directory not found for addon '" ++ fmt addon_id ++ lit "'")
             (Some addon_path) None None ;;
       return_ false
     else next tt) ;;
    let manifest_path := path_join addon_path (lit "manifest.json") in
    (if negb (path_exists fs manifest_path) then
       error (lit "Missing manifest.json for addon '" ++ fmt addon_id ++ lit "'")
             (Some manifest_path) None None ;;
       return_ false
     else next tt) ;;
    manifest <-
      match json_load fs manifest_path with
      | Parsed manifest => next manifest
      | DecodeError e =>
          error (lit "Invalid JSON in manifest.json for '" ++ fmt addon_id
                 ++ lit "': " ++ jde_str e)
                (Some manifest_path) None None ;;
          return_ false
      | LoadRaises e => raise e
      end ;;
    required_fields_check required_manifest_fields manifest manifest_path ;;
    domain_validation manifest manifest_path ;;
    check_implementations manifest addon_path manifest_path addon_id ;;
    check_core_version manifest manifest_path addon_id core_version ;;
    return_ true).

(** What a [for] loop iterates over. *)
Definition iterate (v : pyvalue) : result (list pyvalue) :=
  match v with
  | PList l => Value l
  | PStr s => Value (List.map (fun c => PStr [c]) s)
  | PDict d => Value (List.map (fun kv => PStr (fst kv)) d)
  | _ => Raised TypeError
  end.

(** [sys.exit(code)]: leaves [main] with the exit code. *)
Definition sys_exit {A} (code : Z) : body Z A := return_ code.

(** The loop [for i, addon in enumerate(db["addons"])] from index [i] on,
    with the current value of [success]; it gives the final [success]. *)
Fixpoint addon_loop (entries : list pyvalue) (i : N) (success : bool)
    (repo_path : pystr) (core_ver : option pystr) : body Z bool :=
  match entries with
  | [] => next success
  | addon :: rest =>
      addon_id <- eval (method_get addon (lit "id")) ;;
      if negb (truthy addon_id) then
        error (lit "Addon entry at index " ++ str_of_Z (Z.of_N i)
               ++ lit " missing 'id'")
              (Some (path_join repo_path (lit "addons.json"))) None None ;;
        addon_loop rest (i + 1) false repo_path core_ver
      else
        print (lit "Validating addon: " ++ fmt addon_id ++ lit "...") ;;
        ok <- call (validate_addon_directory repo_path addon_id core_ver) ;;
        addon_loop rest (i + 1) (if negb ok then false else success)
                   repo_path core_ver
  end.

(** The end of [main], once the loop is over. *)
Definition conclude (success : bool) : body Z unit :=
  (if negb success then
     print (lit "Validation FAILED.") ;;
     sys_exit 1
   else next tt) ;;
  print (lit "Validation SUCCESSFUL.") ;;
  sys_exit 0.

(** [main], after [repo_path] was made absolute and the arguments parsed. *)
Definition main (repo_path : pystr) (core_ver : option pystr) : body Z unit :=
  print (lit "Validating repository at: " ++ repo_path) ;;
  (if some_str_truthy core_ver then
     print (lit "Checking compatibility against Core Version: "
            ++ fmt_opt_str core_ver)
   else next tt) ;;
  db <- call (validate_addons_json repo_path) ;;
  (if negb (truthy db) then sys_exit 1 else next tt) ;;
  addons <- eval (subscript db (lit "addons")) ;;
  entries <- eval (iterate addons) ;;
  success <- addon_loop entries 0 true repo_path core_ver ;;
  conclude success.

(** The process: [if __name__ == "__main__": main()]. *)
Definition run_main (repo_path : pystr) (core_ver : option pystr)
  : output -> exit_status * output :=
  run (main repo_path core_ver).

End Validate.

(* ================================================================= *)
(** ** Concrete instances for examples *)

Definition in_range (lo hi c : N) : bool := N.leb lo c && N.leb c hi.

Definition ascii_letter (c : N) : bool :=
  in_range 65 90 c || in_range 97 122 c.

Definition ascii_digit (c : N) : bool := in_range 48 57 c.

Definition is_ascii (c : N) : bool := N.ltb c 128.

(** The pattern [^[A-Za-z_][A-Za-z0-9_]*$] of the specification, as a full
    match of the string. *)
Definition ascii_identifier (s : pystr) : bool :=
  match s with
  | [] => false
  | first :: rest =>
      (ascii_letter first || N.eqb first UNDERSCORE)
      && forallb (fun c => ascii_letter c || ascii_digit c || N.eqb c UNDERSCORE)
                 rest
  end.

(** XID_Start and XID_Continue of Unicode on the code points U+0000 to
    U+00FF (Basic Latin and Latin-1 Supplement); no code point above them
    is listed. *)
Definition latin1_xid_start (c : N) : bool :=
  ascii_letter c
  || N.eqb c 170 || N.eqb c 181 || N.eqb c 186
  || in_range 192 214 c || in_range 216 246 c || in_range 248 255 c.

Definition latin1_xid_continue (c : N) : bool :=
  latin1_xid_start c || ascii_digit c || N.eqb c UNDERSCORE || N.eqb c 183.

(** [str(v)] for [None], booleans and integers; the examples format no
    other value that is not a string. *)
Definition scalar_str (v : pyvalue) : pystr :=
  match v with
  | PNone => lit "None"
  | PBool true => lit "True"
  | PBool false => lit "False"
  | PInt z => str_of_Z z
  | PStr s => s
  | _ => lit "<object>"
  end.

(** The UTF-8 encoder with the error handler [strict]: it refuses the
    surrogates U+D800 to U+DFFF, which [json.load] builds from escapes
    such as [\ud800] and which stand for the bytes of a file name that is
    not UTF-8. *)
Definition utf8_strict (c : N) : bool :=
  negb (in_range 55296 57343 c) && N.leb c 1114111.

(** [str(e)] for the examples: the reason of a [UnicodeEncodeError] of the
    UTF-8 encoder, without the position of the character, which no example
    prints. *)
Definition demo_str_exn (e : exn) : pystr :=
  match e with
  | UnicodeEncodeError _ =>
      lit "'utf-8' codec can't encode character: surrogates not allowed"
  | _ => []
  end.

(** Splitting a string at a separator, [s.split(sep)]. *)
Fixpoint split_at (sep : N) (s : pystr) (current : pystr) : list pystr :=
  match s with
  | [] => [rev current]
  | c :: rest =>
      if N.eqb c sep then rev current :: split_at sep rest []
      else split_at sep rest (c :: current)
  end.

Definition decimal_value (segment : pystr) : option N :=
  match segment with
  | [] => None
  | _ =>
      fold_left
        (fun acc c =>
           match acc with
           | Some n => if ascii_digit c then Some (10 * n + (c - 48))%N else None
           | None => None
           end)
        segment (Some 0%N)
  end.

Fixpoint all_some {A} (l : list (option A)) : option (list A) :=
  match l with
  | [] => Some []
  | None :: _ => None
  | Some a :: rest =>
      match all_some rest with
      | Some r => Some (a :: r)
      | None => None
      end
  end.

Fixpoint release_gt (a b : list N) : bool :=
  match a, b with
  | [], _ => false
  | x :: a', [] => N.ltb 0 x || release_gt a' []
  | x :: a', y :: b' =>
      if N.ltb y x then true
      else if N.ltb x y then false
      else release_gt a' b'
  end.

(** Modelled from the spec: the version capability, which the program takes
    from the library [packaging] (not part of the repository).  Versions
    are dotted sequences of decimal numbers, compared component by
    component with missing components read as zero; pre-release and build
    suffixes are left out, and anything else fails to parse. *)
Definition dotted_versions : version_module (list N) := {|
  parse := fun v =>
    match v with
    | PStr s =>
        match all_some (List.map decimal_value (split_at 46 s [])) with
        | Some release => inl release
        | None => inr (lit "Invalid version: '" ++ s ++ lit "'")
        end
    | _ => inr (lit "expected string or bytes-like object")
    end;
  gt := release_gt
|}.

(** A file system given by the list of its entries. *)
Fixpoint fs_of (entries : list (pystr * node)) : filesystem :=
  fun p =>
    match entries with
    | [] => Absent
    | (q, n) :: rest => if pystr_eqb q p then n else fs_of rest p
    end.

(* ================================================================= *)
(** ** Example repositories *)

Definition demo_repo : pystr := lit "/repo".

(** A file that is not JSON, such as a Python source. *)
Definition python_source : node :=
  Regular (DecodeError {|
    jde_msg := lit "Expecting value";
    jde_lineno := 1;
    jde_colno := 1;
    jde_str := lit "Expecting value: line 1 column 1 (char 0)" |}).

(** The three required fields of a manifest with the given [domain]. *)
Definition required_fields_of (domain : pyvalue) : pydict :=
  [ (lit "domain", domain);
    (lit "name", PStr (lit "A"));
    (lit "version", PStr (lit "1.0")) ].

(** The repository [/repo] with the index entries [index] and one addon
    directory [a], whose manifest has the given fields and which holds
    [integration.py] when [integration] is set. *)
Definition demo_fs (index : list pyvalue) (fields : pydict)
    (integration : bool) : filesystem :=
  fs_of
    ([ (lit "/repo/addons.json",
        Regular (Parsed (PDict [(lit "addons", PList index)])));
       (lit "/repo/a", Directory);
       (lit "/repo/a/manifest.json", Regular (Parsed (PDict fields))) ]
     ++ (if integration
         then [(lit "/repo/a/integration.py", python_source)]
         else [])).

(** An index entry [{"id": id}]. *)
Definition entry (id : pystr) : pyvalue := PDict [(lit "id", PStr id)].

(** [validate_addon_directory] and the process on the example platform:
    standard output in UTF-8, the Latin-1 tables, [dotted_versions] as the
    capability when [capability] is set. *)
Definition demo_version (capability : bool)
  : option (version_module (list N)) :=
  if capability then Some dotted_versions else None.

Definition demo_validate (capability : bool) (fs : filesystem)
    (core_version : option pystr) : output -> result bool * output :=
  validate_addon_directory utf8_strict latin1_xid_start latin1_xid_continue
    scalar_str demo_str_exn (demo_version capability) fs demo_repo
    (PStr (lit "a")) core_version.

Definition demo_process (fs : filesystem)
  : output -> exit_status * output :=
  run_main utf8_strict latin1_xid_start latin1_xid_continue scalar_str
    demo_str_exn (demo_version true) fs demo_repo None.

(** The manifest of addon [a] with its required fields and the given
    further fields. *)
Definition manifest_with (extra : pydict) : pydict :=
  required_fields_of (PStr (lit "a")) ++ extra.


(** An addon directory whose name is the single byte 0x80, which is not
    UTF-8: Python reads the name as the lone surrogate U+DC80, and an
    index names it with the JSON escape [\udc80]. *)
Definition undecodable_id : pystr := [56448%N].




(* ================================================================= *)
(** ** Vocabulary of the properties *)

(** The directory of an addon and the path of its manifest, as
    [validate_addon_directory] computes them. *)
Definition addon_dir (repo_path addon_id : pystr) : pystr :=
  path_join repo_path addon_id.

Definition manifest_json (repo_path addon_id : pystr) : pystr :=
  path_join (addon_dir repo_path addon_id) (lit "manifest.json").

(** The addon directory exists and its manifest parses to the object [m]. *)
Definition manifest_loaded (fs : filesystem) (repo_path addon_id : pystr)
    (m : pydict) : Prop :=
  fs (addon_dir repo_path addon_id) = Directory
  /\ fs (manifest_json repo_path addon_id) = Regular (Parsed (PDict m)).

(** The keys [domain], [name] and [version] are all present. *)
Definition has_required_fields (m : pydict) : bool :=
  forallb (dict_has m) required_manifest_fields.

(** A statement that falls through without writing anything. *)
Definition passes {R} (b : body R unit) (out : output) : Prop :=
  b out = (Next tt, out).

(** What [main] prints before it loads the index. *)
Definition banner (repo_path : pystr) (core_ver : option pystr) : output :=
  (Stdout, (lit "Validating repository at: " ++ repo_path) ++ [LF])
  :: (if some_str_truthy core_ver
      then [(Stdout, (lit "Checking compatibility against Core Version: "
                      ++ fmt_opt_str core_ver) ++ [LF])]
      else []).

(** On ASCII, XID_Start is the letters and XID_Continue the letters, the
    digits and the underscore. *)
Definition ascii_tables (xid_start xid_continue : N -> bool) : Prop :=
  forall c, is_ascii c = true ->
    xid_start c = ascii_letter c
    /\ xid_continue c = (ascii_letter c || ascii_digit c || N.eqb c UNDERSCORE).

(** The path of the index, as [validate_addons_json] and [main] compute it. *)
Definition index_json (repo_path : pystr) : pystr :=
  path_join repo_path (lit "addons.json").

(** The addon passes every check that comes before the version check. *)
Definition reaches_version_check
    (stdout_encodes xid_start xid_continue : N -> bool)
    (py_str : pyvalue -> pystr) (fs : filesystem)
    (repo_path addon_id : pystr) (m : pydict) (out : output) : Prop :=
  manifest_loaded fs repo_path addon_id m
  /\ has_required_fields m = true
  /\ (exists d, dict_get m (lit "domain") = Some (PStr d)
                /\ isidentifier xid_start xid_continue d = true)
  /\ passes (check_implementations stdout_encodes py_str fs (PDict m)
               (addon_dir repo_path addon_id)
               (manifest_json repo_path addon_id) (PStr addon_id)) out.

(** The loop ended with [success] false, or an exception left it. *)
Definition failed_or_raised (r : flow Z bool * output) : Prop :=
  match fst r with
  | Next b => b = false
  | Return _ => False
  | Raise _ => True
  end.

(** A write on the error stream: the plain-text copy of an error. *)
Definition is_stderr (w : write) : bool :=
  match fst w with Stderr => true | Stdout => false end.

(** The writes hold an error. *)
Definition reports_error (ws : output) : bool := existsb is_stderr ws.

(** The output discipline of a function that returns a boolean: after a
    fall-through, [return True] or an exception nothing was written; after
    [return False] exactly the two writes of one [error] call were. *)
Definition one_error_or_quiet {A} (r : flow bool A * output) (out : output)
  : Prop :=
  match r with
  | (Next _, out') => out' = out
  | (Return true, out') => out' = out
  | (Return false, out') =>
      exists message file, out' = out ++ error_writes message file None None
  | (Raise _, out') => out' = out
  end.

(** The progress line the loop of [main] prints for an addon. *)
Definition progress_line (py_str : pyvalue -> pystr) (addon_id : pyvalue)
  : write :=
  (Stdout, (lit "Validating addon: " ++ fmt py_str addon_id ++ lit "...")
             ++ [LF]).

(** The closing lines of [main]. *)
Definition summary_successful : write :=
  (Stdout, lit "Validation SUCCESSFUL." ++ [LF]).

Definition summary_failed : write :=
  (Stdout, lit "Validation FAILED." ++ [LF]).

(** Every implementation file named before a given entry is a string and
    exists under [dir]. *)
Definition files_exist (fs : filesystem) (dir : pystr) (items : pydict)
  : Prop :=
  Forall (fun kv => exists f, snd kv = PStr f
                              /\ path_exists fs (path_join dir f) = true)
         items.

(** A computation that does not look at what was written before: it gives
    the result it gives on the empty output and appends what it writes
    there. *)
Definition framed {X} (f : output -> X * output) : Prop :=
  forall out, f out = (fst (f []), out ++ snd (f [])).

(** The value of [addon.get("id")] for an index entry that is an object. *)
Definition id_of_entry (entry : pyvalue) : pyvalue :=
  match entry with
  | PDict d => get_or_none d (lit "id")
  | _ => PNone
  end.

(** An index entry that the loop of [main] passes without setting
    [success] to false: an object with a truthy [id] whose addon
    validates. *)
Definition valid_entry (stdout_encodes xid_start xid_continue : N -> bool)
    (py_str : pyvalue -> pystr) (str_exn : exn -> pystr) {V}
    (version : option (version_module V))
    (fs : filesystem) (repo_path : pystr) (core_ver : option pystr)
    (entry : pyvalue) : Prop :=
  isinstance_dict entry = true
  /\ truthy (id_of_entry entry) = true
  /\ fst (validate_addon_directory stdout_encodes xid_start xid_continue
            py_str str_exn version fs repo_path (id_of_entry entry)
            core_ver [])
     = Value true.

(** The annotation of an error located at a file: the text [error] prints
    on standard output for a file name that is not empty and no line or
    column. *)
Definition annotation_line (message path : pystr) : pystr :=
  lit "::error file=" ++ path ++ lit "::" ++ message.

(** The two lines of an error located at a file. *)
Definition located_error (message path : pystr) : output :=
  [ (Stdout, annotation_line message path ++ [LF]);
    (Stderr, (lit "ERROR: " ++ message) ++ [LF]) ].

(** The lines [main] prints before it loads the index. *)
Definition banner_lines (repo_path : pystr) (core_ver : option pystr)
  : list pystr :=
  (lit "Validating repository at: " ++ repo_path)
  :: (if some_str_truthy core_ver
      then [lit "Checking compatibility against Core Version: "
            ++ fmt_opt_str core_ver]
      else []).

(** The text of the progress line of an addon. *)
Definition progress_text (py_str : pyvalue -> pystr) (addon_id : pyvalue)
  : pystr :=
  lit "Validating addon: " ++ fmt py_str addon_id ++ lit "...".

(** The outcome of [error(...)] followed by [return r]: the two writes and
    [r], or the exception of the first [print] with nothing written. *)
Definition error_and_return {A} (stdout_encodes : N -> bool) (r : A)
    (message : pystr) (file : option pystr) (line col : option Z)
    (out : output) : result A * output :=
  if encodable stdout_encodes (annotation message file line col)
  then (Value r, out ++ error_writes message file line col)
  else (Raised (UnicodeEncodeError (annotation message file line col)), out).

(** Standard output can encode every line of a run that prints its banner,
    the progress line of each entry and the closing line of success. *)
Definition printable_run (stdout_encodes : N -> bool)
    (py_str : pyvalue -> pystr) (repo_path : pystr)
    (core_ver : option pystr) (entries : list pyvalue) : Prop :=
  forallb (encodable stdout_encodes) (banner_lines repo_path core_ver) = true
  /\ Forall (fun e => encodable stdout_encodes
                        (progress_text py_str (id_of_entry e)) = true)
            entries
  /\ encodable stdout_encodes (lit "Validation SUCCESSFUL.") = true.

(** The call raised the exception of the encoder and wrote nothing. *)
Definition raises_encode_error {A} (r : result A * output) : Prop :=
  exists text, r = (Raised (UnicodeEncodeError text), []).

(* ================================================================= *)
(** * Properties *)

Unset Implicit Arguments.

Arguments lit : simpl never.
Arguments path_join : simpl never.
Arguments str_of_Z : simpl never.
Arguments error : simpl never.
Arguments encodable : simpl never.

(** ** The reporter *)

Section ReporterProperties.

Variable stdout_encodes : N -> bool.

#[local] Abbreviation accepts := (encodable stdout_encodes).
#[local] Abbreviation report R := (@error stdout_encodes R).

Lemma path_join_not_empty (a b : pystr) : b <> [] -> path_join a b <> [].
Proof.
  intro Hb. unfold path_join.
  destruct (startswith b [SLASH]); [exact Hb|].
  destruct a as [|x a]; [exact Hb|].
  destruct (endswith_char (x :: a) SLASH); discriminate.
Qed.

Lemma manifest_json_not_empty repo s : manifest_json repo s <> [].
Proof. apply path_join_not_empty. discriminate. Qed.

Lemma index_json_not_empty repo : index_json repo <> [].
Proof. apply path_join_not_empty. discriminate. Qed.

(** The annotation of an error with a file and no line or column. *)
Lemma annotation_located (message path : pystr) :
  path <> [] ->
  annotation message (Some path) None None = annotation_line message path.
Proof.
  intro Hne. destruct path as [|x p]; [contradiction|].
  unfold annotation, annotation_line, location.
  cbn [some_str_truthy some_int_truthy fmt_opt_str app].
  reflexivity.
Qed.

Lemma location_prefix (path : pystr) line col :
  path <> [] ->
  exists rest, location (Some path) line col = lit "file=" ++ path ++ rest.
Proof.
  intro Hne. destruct path as [|x p]; [contradiction|].
  unfold location. cbn [some_str_truthy fmt_opt_str app].
  destruct (some_int_truthy line), (some_int_truthy col);
    eexists; repeat rewrite <- app_assoc; try reflexivity.
  rewrite app_nil_r. reflexivity.
Qed.

Lemma error_written R message file line col out :
  accepts (annotation message file line col) = true ->
  report R message file line col out
  = (Next tt, out ++ error_writes message file line col).
Proof.
  intro H. unfold error, bind, print, print_stderr, error_writes.
  rewrite H. rewrite <- app_assoc. reflexivity.
Qed.

Lemma error_refused R message file line col out :
  accepts (annotation message file line col) = false ->
  report R message file line col out
  = (Raise (UnicodeEncodeError (annotation message file line col)), out).
Proof.
  intro H. unfold error, bind, print. rewrite H. reflexivity.
Qed.

Lemma error_located R (message path : pystr) out :
  path <> [] ->
  accepts (annotation_line message path) = true ->
  report R message (Some path) None None out
  = (Next tt, out ++ located_error message path).
Proof.
  intros Hne H. rewrite <- (annotation_located message path Hne) in H.
  rewrite (error_written R _ _ _ _ out H).
  unfold error_writes, located_error.
  rewrite (annotation_located message path Hne). reflexivity.
Qed.

(** [error(...); return r] for an error located at a file. *)
Lemma fail_located R A (message path : pystr) (r : R) out :
  path <> [] ->
  accepts (annotation_line message path) = true ->
  (report R message (Some path) None None ;; return_ (A:=A) r) out
  = (Return r, out ++ located_error message path).
Proof.
  intros Hne H. unfold bind. rewrite (error_located R _ _ out Hne H).
  reflexivity.
Qed.

Lemma fail_refused R A message file line col (r : R) out :
  accepts (annotation message file line col) = false ->
  (report R message file line col ;; return_ (A:=A) r) out
  = (Raise (UnicodeEncodeError (annotation message file line col)), out).
Proof.
  intro H. unfold bind. rewrite (error_refused R _ _ _ _ out H). reflexivity.
Qed.

(** [error(...); return r] either writes the two lines and returns, or
    raises at the first [print] with nothing written. *)
Lemma fail_outcome R A message file line col (r : R) out :
  (report R message file line col ;; return_ (A:=A) r) out
  = (Return r, out ++ error_writes message file line col)
  \/ (report R message file line col ;; return_ (A:=A) r) out
     = (Raise (UnicodeEncodeError (annotation message file line col)), out).
Proof.
  destruct (accepts (annotation message file line col)) eqn:H.
  - left. unfold bind. rewrite (error_written R _ _ _ _ out H). reflexivity.
  - right. apply fail_refused. exact H.
Qed.

(** With a file, the annotation is [::error file=<path>], the line and the
    column when they are given, [::] and the message. *)
Lemma annotation_shape (message path : pystr) line col :
  path <> [] ->
  exists rest,
    annotation message (Some path) line col
    = lit "::error file=" ++ path ++ rest ++ lit "::" ++ message.
Proof.
  intro Hne. destruct (location_prefix path line col Hne) as [rest Hloc].
  exists rest.
  unfold annotation. rewrite Hloc.
  change (lit "file=" ++ path ++ rest)
    with (102%N :: lit "ile=" ++ path ++ rest).
  cbv iota.
  change (102%N :: lit "ile=" ++ path ++ rest)
    with (lit "file=" ++ path ++ rest).
  repeat rewrite <- app_assoc. reflexivity.
Qed.

(** With a file, a line and a column that are not 0. *)
Lemma annotation_full (message path : pystr) line col :
  path <> [] -> line <> 0%Z -> col <> 0%Z ->
  annotation message (Some path) (Some line) (Some col)
  = lit "::error file=" ++ path ++ lit ",line=" ++ str_of_Z line
    ++ lit ",col=" ++ str_of_Z col ++ lit "::" ++ message.
Proof.
  intros Hne Hl Hc. destruct path as [|x p]; [contradiction|].
  unfold annotation, location.
  cbn [some_str_truthy some_int_truthy fmt_opt_str fmt_opt_int].
  apply Z.eqb_neq in Hl, Hc. rewrite Hl, Hc. cbn [negb].
  change ([] ++ lit "file=" ++ x :: p) with (102%N :: lit "ile=" ++ x :: p).
  cbn [app]. repeat rewrite <- app_assoc. reflexivity.
Qed.

(** [print] either writes its line or raises with nothing written. *)
Lemma print_outcome R text out :
  (accepts text = true
   /\ @print stdout_encodes R text out
      = (Next tt, out ++ [(Stdout, text ++ [LF])]))
  \/ (accepts text = false
      /\ @print stdout_encodes R text out
         = (Raise (UnicodeEncodeError text), out)).
Proof.
  unfold print. destruct (accepts text); [left | right]; split; reflexivity.
Qed.

Lemma print_written R text out :
  accepts text = true ->
  @print stdout_encodes R text out = (Next tt, out ++ [(Stdout, text ++ [LF])]).
Proof. intro H. unfold print. rewrite H. reflexivity. Qed.

End ReporterProperties.

(* ================================================================= *)
(** ** The per-addon checks *)

Section AddonProperties.

Variable stdout_encodes xid_start xid_continue : N -> bool.
Variable py_str : pyvalue -> pystr.
Variable str_exn : exn -> pystr.
Variable V : Type.
Variable version : option (version_module V).
Variable fs : filesystem.

#[local] Abbreviation accepts := (encodable stdout_encodes).
#[local] Abbreviation validate :=
  (validate_addon_directory stdout_encodes xid_start xid_continue py_str
     str_exn version fs).
#[local] Abbreviation fields_block :=
  (required_fields_check stdout_encodes).
#[local] Abbreviation domain_block :=
  (domain_validation stdout_encodes xid_start xid_continue py_str).
#[local] Abbreviation implementations_block :=
  (check_implementations stdout_encodes py_str fs).
#[local] Abbreviation files_block :=
  (implementation_files stdout_encodes py_str fs).
#[local] Abbreviation version_block :=
  (check_core_version stdout_encodes py_str str_exn version).
#[local] Abbreviation reaches :=
  (reaches_version_check stdout_encodes xid_start xid_continue py_str fs).
#[local] Abbreviation fail message path :=
  (@error stdout_encodes bool message (Some path) None None ;;
   return_ (A:=unit) false).

(** Rewrite a failing [error(...); return False] whose annotation the
    stream can encode. *)
Ltac reported Hne Henc :=
  first
    [ rewrite (fail_located stdout_encodes bool _ _ _ false _ Hne Henc)
    | unfold bind at 1;
      rewrite (fail_located stdout_encodes bool _ _ _ false _ Hne Henc)
    | unfold bind at 1; unfold bind at 1;
      rewrite (fail_located stdout_encodes bool _ _ _ false _ Hne Henc) ].

(** *** Up to the manifest *)

(** Once the manifest is parsed the function is the sequence of its four
    blocks. *)
Lemma validate_after_parse repo s cv manifest out :
  fs (addon_dir repo s) = Directory ->
  fs (manifest_json repo s) = Regular (Parsed manifest) ->
  validate repo (PStr s) cv out
  = def (fields_block required_manifest_fields manifest
           (manifest_json repo s) ;;
         domain_block manifest (manifest_json repo s) ;;
         implementations_block manifest (addon_dir repo s)
           (manifest_json repo s) (PStr s) ;;
         version_block manifest (manifest_json repo s) (PStr s) cv ;;
         return_ true) out.
Proof.
  unfold manifest_json, addon_dir. intros Hdir Hman.
  unfold validate_addon_directory, path_isdir, path_exists, json_load.
  unfold def, bind at 1 2 3 4, eval, next. cbn [os_path_join].
  rewrite Hdir. cbn [negb]. cbv iota beta. rewrite Hman. reflexivity.
Qed.

Lemma validate_after_load repo s cv m out :
  manifest_loaded fs repo s m ->
  validate repo (PStr s) cv out
  = def (fields_block required_manifest_fields (PDict m)
           (manifest_json repo s) ;;
         domain_block (PDict m) (manifest_json repo s) ;;
         implementations_block (PDict m) (addon_dir repo s)
           (manifest_json repo s) (PStr s) ;;
         version_block (PDict m) (manifest_json repo s) (PStr s) cv ;;
         return_ true) out.
Proof. intros [Hdir Hman]. apply validate_after_parse; assumption. Qed.

(** An addon identifier that is not a string raises at [os.path.join]. *)
Lemma validate_id_not_string repo addon_id cv out :
  isinstance_str addon_id = false ->
  validate repo addon_id cv out = (Raised TypeError, out).
Proof.
  intro H. unfold validate_addon_directory, def, bind at 1, eval.
  destruct addon_id; try discriminate H; reflexivity.
Qed.

Lemma validate_before_directory repo s cv out :
  path_isdir fs (addon_dir repo s) = false ->
  validate repo (PStr s) cv out
  = match (@error stdout_encodes bool
             (lit "Directory not found for addon '" ++ s ++ lit "'")
             (Some (addon_dir repo s)) None None ;;
           return_ (A:=unit) false) out with
    | (Next _, out') => (Value false, out')
    | (Return r, out') => (Value r, out')
    | (Raise e, out') => (Raised e, out')
    end.
Proof.
  unfold addon_dir. intro Hdir.
  unfold validate_addon_directory, def, bind at 1, eval, next.
  cbn [os_path_join]. unfold bind at 1. rewrite Hdir. cbn [negb fmt].
  destruct ((error _ _ _ _ _ ;; return_ false) out) as [[[]|r|e] o] eqn:E;
    try reflexivity.
  unfold bind in E. destruct (error _ _ _ _ _ out) as [[[]|r|e] o'];
    discriminate E.
Qed.

Lemma validate_no_directory repo s cv out :
  s <> [] ->
  path_isdir fs (addon_dir repo s) = false ->
  accepts (annotation_line
             (lit "Directory not found for addon '" ++ s ++ lit "'")
             (addon_dir repo s)) = true ->
  validate repo (PStr s) cv out
  = (Value false,
     out ++ located_error
              (lit "Directory not found for addon '" ++ s ++ lit "'")
              (addon_dir repo s)).
Proof.
  intros Hs Hdir Henc. rewrite (validate_before_directory repo s cv out Hdir).
  reported (path_join_not_empty repo s Hs) Henc. reflexivity.
Qed.

(** Without its directory an addon never validates. *)
Lemma validate_no_directory_fails repo s cv out :
  path_isdir fs (addon_dir repo s) = false ->
  fst (validate repo (PStr s) cv out) <> Value true.
Proof.
  intro Hdir. rewrite (validate_before_directory repo s cv out Hdir).
  destruct (fail_outcome stdout_encodes bool unit
              (lit "Directory not found for addon '" ++ s ++ lit "'")
              (Some (addon_dir repo s)) None None false out) as [-> | ->];
    discriminate.
Qed.

(** X1: for an existing addon directory whose manifest path standard
    output can encode: without [manifest.json] the addon fails with the
    missing-manifest error, and with a [manifest.json] that is not valid
    JSON it fails with the error that carries the text of the parser.  In
    both cases the annotation is located at the manifest path, the result
    is [False] and nothing else is written. *)
Theorem manifest_missing_or_invalid :
  forall repo s cv out,
    fs (addon_dir repo s) = Directory ->
    (fs (manifest_json repo s) = Absent ->
     accepts (annotation_line
                (lit "Missing manifest.json for addon '" ++ s ++ lit "'")
                (manifest_json repo s)) = true ->
     validate repo (PStr s) cv out
     = (Value false,
        out ++ located_error
                 (lit "Missing manifest.json for addon '" ++ s ++ lit "'")
                 (manifest_json repo s)))
    /\ (forall e,
           fs (manifest_json repo s) = Regular (DecodeError e) ->
           accepts (annotation_line
                      (lit "Invalid JSON in manifest.json for '" ++ s
                       ++ lit "': " ++ jde_str e)
                      (manifest_json repo s)) = true ->
           validate repo (PStr s) cv out
           = (Value false,
              out ++ located_error
                       (lit "Invalid JSON in manifest.json for '" ++ s
                        ++ lit "': " ++ jde_str e)
                       (manifest_json repo s))).
Proof.
  intros repo s cv out Hdir.
  pose proof (manifest_json_not_empty repo s) as Hne.
  unfold manifest_json, addon_dir in *.
  split; [intros Hman Henc | intros e Hman Henc];
    unfold validate_addon_directory, def, path_isdir, path_exists, json_load;
    unfold bind at 1, eval, next; cbn [os_path_join];
    unfold bind at 1; rewrite Hdir; cbn [negb];
    unfold bind at 1; rewrite Hman; cbn [negb fmt].
  - reported Hne Henc. reflexivity.
  - reported Hne Henc. reflexivity.
Qed.

(** X2: a [manifest.json] that exists but cannot be read as text (it is a
    directory, or it is not UTF-8) makes [validate_addon_directory] raise:
    only [json.JSONDecodeError] is caught.  Nothing is written. *)
Theorem manifest_unreadable_raises :
  forall repo s cv out,
    fs (addon_dir repo s) = Directory ->
    (fs (manifest_json repo s) = Directory ->
     validate repo (PStr s) cv out = (Raised OSError, out))
    /\ (forall e,
           fs (manifest_json repo s) = Regular (LoadRaises e) ->
           validate repo (PStr s) cv out = (Raised e, out)).
Proof.
  intros repo s cv out Hdir. unfold manifest_json, addon_dir in *.
  split; [intro Hman | intros e Hman];
    unfold validate_addon_directory, def, path_isdir, path_exists, json_load;
    unfold bind at 1, eval, next; cbn [os_path_join];
    unfold bind at 1; rewrite Hdir; cbn [negb];
    unfold bind at 1; rewrite Hman; cbn [negb fmt];
    unfold bind at 1; reflexivity.
Qed.

(** *** The required fields *)

Lemma required_fields_present m path out :
  has_required_fields m = true ->
  fields_block required_manifest_fields (PDict m) path out = (Next tt, out).
Proof.
  unfold has_required_fields, required_manifest_fields. cbn [forallb].
  intro H. repeat (apply andb_prop in H; destruct H as [? H]).
  unfold required_fields_check, bind, eval, next. cbn [py_in].
  repeat match goal with E : dict_has _ _ = true |- _ => rewrite E; clear E end.
  reflexivity.
Qed.



Lemma validate_after_fields repo s cv m out :
  manifest_loaded fs repo s m ->
  has_required_fields m = true ->
  validate repo (PStr s) cv out
  = def (domain_block (PDict m) (manifest_json repo s) ;;
         implementations_block (PDict m) (addon_dir repo s)
           (manifest_json repo s) (PStr s) ;;
         version_block (PDict m) (manifest_json repo s) (PStr s) cv ;;
         return_ true) out.
Proof.
  intros Hload Hreq. rewrite (validate_after_load repo s cv m out Hload).
  unfold def, bind at 1. rewrite (required_fields_present m _ out Hreq).
  reflexivity.
Qed.

(** *** A manifest that is not an object *)

Lemma pystr_eqb_eq a b : pystr_eqb a b = true <-> a = b.
Proof.
  revert b. induction a as [|x a IH]; intros [|y b]; cbn [pystr_eqb];
    try (split; [discriminate|discriminate]); [split; reflexivity|].
  rewrite andb_true_iff, N.eqb_eq, IH. split.
  - intros [-> ->]. reflexivity.
  - intro H. inversion H. auto.
Qed.

Lemma list_has_str l f :
  existsb (is_str_equal_to f) l = true <-> In (PStr f) l.
Proof.
  rewrite existsb_exists. split.
  - intros [v [Hin Hv]]. destruct v; try discriminate Hv.
    cbn [is_str_equal_to] in Hv. apply pystr_eqb_eq in Hv. subst. exact Hin.
  - intro Hin. exists (PStr f). split; [exact Hin|].
    cbn [is_str_equal_to]. apply pystr_eqb_eq. reflexivity.
Qed.

Lemma list_lacks_str l f :
  ~ In (PStr f) l -> existsb (is_str_equal_to f) l = false.
Proof.
  intro H. destruct (existsb (is_str_equal_to f) l) eqn:E; [|reflexivity].
  apply list_has_str in E. contradiction.
Qed.

Lemma first_missing_element l field path out :
  (~ In (PStr (lit "domain")) l /\ field = lit "domain")
  \/ (In (PStr (lit "domain")) l
      /\ ~ In (PStr (lit "name")) l /\ field = lit "name")
  \/ (In (PStr (lit "domain")) l
      /\ In (PStr (lit "name")) l
      /\ ~ In (PStr (lit "version")) l /\ field = lit "version") ->
  fields_block required_manifest_fields (PList l) path out
  = fail (lit "manifest.json missing required field '" ++ field ++ lit "'")
         path out.
Proof.
  unfold required_manifest_fields, required_fields_check.
  unfold bind at 1, eval at 1, next at 1. cbn [py_in].
  intros [[Hd ->]|[[Hd [Hn ->]]|[Hd [Hn [Hv ->]]]]].
  - rewrite (list_lacks_str _ _ Hd). reflexivity.
  - rewrite (proj2 (list_has_str _ _) Hd). cbn [negb].
    unfold bind at 1, eval at 1, next at 1. cbn [py_in].
    rewrite (list_lacks_str _ _ Hn). reflexivity.
  - rewrite (proj2 (list_has_str _ _) Hd). cbn [negb].
    unfold bind at 1, eval at 1, next at 1. cbn [py_in].
    rewrite (proj2 (list_has_str _ _) Hn). cbn [negb].
    unfold bind at 1, eval at 1, next at 1. cbn [py_in].
    rewrite (list_lacks_str _ _ Hv). reflexivity.
Qed.

Lemma all_elements_present l path out :
  In (PStr (lit "domain")) l -> In (PStr (lit "name")) l ->
  In (PStr (lit "version")) l ->
  fields_block required_manifest_fields (PList l) path out = (Next tt, out).
Proof.
  intros Hd Hn Hv.
  unfold required_manifest_fields, required_fields_check.
  unfold bind, eval, next. cbn [py_in].
  rewrite (proj2 (list_has_str _ _) Hd), (proj2 (list_has_str _ _) Hn),
    (proj2 (list_has_str _ _) Hv).
  reflexivity.
Qed.

(** X8: a manifest that parses to something other than an object is not
    rejected as such.  A number, a boolean or [null] raises [TypeError] at
    the first [in] test.  An array is searched for the field names as
    elements: when it lacks [domain], else [name], else [version] as an
    element, the addon fails with the missing-field error for that name
    (when standard output can encode the annotation); when it holds all
    three names it raises [AttributeError] at [.get]. *)
Theorem manifest_not_an_object :
  forall repo s cv v out,
    fs (addon_dir repo s) = Directory ->
    fs (manifest_json repo s) = Regular (Parsed v) ->
    (isinstance_dict v = false -> isinstance_list v = false ->
     isinstance_str v = false ->
     validate repo (PStr s) cv out = (Raised TypeError, out))
    /\ (forall l (field : pystr),
           v = PList l ->
           (~ In (PStr (lit "domain")) l /\ field = lit "domain")
           \/ (In (PStr (lit "domain")) l
               /\ ~ In (PStr (lit "name")) l /\ field = lit "name")
           \/ (In (PStr (lit "domain")) l
               /\ In (PStr (lit "name")) l
               /\ ~ In (PStr (lit "version")) l /\ field = lit "version") ->
           accepts (annotation_line
                      (lit "manifest.json missing required field '" ++ field
                       ++ lit "'")
                      (manifest_json repo s)) = true ->
           validate repo (PStr s) cv out
           = (Value false,
              out ++ located_error
                       (lit "manifest.json missing required field '" ++ field
                        ++ lit "'")
                       (manifest_json repo s)))
    /\ (forall l,
           v = PList l ->
           In (PStr (lit "domain")) l -> In (PStr (lit "name")) l ->
           In (PStr (lit "version")) l ->
           validate repo (PStr s) cv out = (Raised AttributeError, out)).
Proof.
  intros repo s cv v out Hdir Hman.
  rewrite (validate_after_parse repo s cv v out Hdir Hman).
  split; [|split].
  - intros Hd Hl Hs. unfold def, bind at 1.
    destruct v; try discriminate; reflexivity.
  - intros l field -> Hmiss Henc. unfold def, bind at 1.
    rewrite (first_missing_element l field _ out Hmiss).
    reported (manifest_json_not_empty repo s) Henc. reflexivity.
  - intros l -> Hd Hn Hv. unfold def, bind at 1.
    rewrite (all_elements_present l _ out Hd Hn Hv).
    unfold bind at 1. reflexivity.
Qed.

(** *** The domain *)

Lemma domain_block_string m d path out :
  dict_get m (lit "domain") = Some (PStr d) ->
  domain_block (PDict m) path out
  = if isidentifier xid_start xid_continue d then (Next tt, out)
    else fail (lit "Invalid domain '" ++ d
               ++ lit "'. Must be a valid identifier (alphanumeric, underscore).")
              path out.
Proof.
  intro Hd. unfold domain_validation.
  unfold bind at 1, eval at 1, next at 1. cbn [method_get].
  unfold get_or_none. rewrite Hd.
  unfold bind at 1, eval at 1, next at 1. cbn [method_isidentifier fmt].
  destruct (isidentifier xid_start xid_continue d); reflexivity.
Qed.

Lemma domain_block_not_string m v path out :
  dict_get m (lit "domain") = Some v ->
  isinstance_str v = false ->
  domain_block (PDict m) path out = (Raise AttributeError, out).
Proof.
  intros Hd Hv. unfold domain_validation, bind, eval, next, raise.
  cbn [method_get]. unfold get_or_none. rewrite Hd.
  destruct v; try discriminate Hv; reflexivity.
Qed.

Lemma ascii_class_is_ascii c :
  ascii_letter c || ascii_digit c || N.eqb c UNDERSCORE = true ->
  is_ascii c = true.
Proof.
  unfold ascii_letter, ascii_digit, in_range, is_ascii, UNDERSCORE.
  intro H. apply N.ltb_lt.
  repeat (apply orb_prop in H; destruct H as [H|H]);
    try (apply andb_prop in H; destruct H as [_ H]; apply N.leb_le in H; lia).
  apply N.eqb_eq in H. lia.
Qed.

Lemma isidentifier_ascii d :
  ascii_tables xid_start xid_continue ->
  forallb is_ascii d = true ->
  isidentifier xid_start xid_continue d = ascii_identifier d.
Proof.
  intros Htab Hd. destruct d as [|first rest]; [reflexivity|].
  cbn [forallb] in Hd. apply andb_prop in Hd. destruct Hd as [Hf Hr].
  unfold isidentifier, ascii_identifier.
  destruct (Htab first Hf) as [-> _]. f_equal.
  induction rest as [|c rest IH]; [reflexivity|].
  cbn [forallb] in *. apply andb_prop in Hr. destruct Hr as [Hc Hr].
  destruct (Htab c Hc) as [_ ->]. rewrite (IH Hr). reflexivity.
Qed.

Lemma ascii_identifier_is_ascii d :
  ascii_identifier d = true -> forallb is_ascii d = true.
Proof.
  destruct d as [|first rest]; [discriminate|].
  unfold ascii_identifier. intro H. apply andb_prop in H. destruct H as [Hf Hr].
  cbn [forallb]. apply andb_true_intro. split.
  - apply ascii_class_is_ascii.
    apply orb_prop in Hf. destruct Hf as [->| ->]; auto using orb_true_r.
  - rewrite forallb_forall in *. intros c Hc.
    apply ascii_class_is_ascii. apply (Hr c Hc).
Qed.

(** C1 (amended): for a manifest whose [domain] is a string, the domain
    check passes exactly when [str.isidentifier] accepts the string.  A
    string it refuses fails the addon with the invalid-domain error,
    located at the manifest path, when standard output can encode the
    annotation, and makes the function raise [UnicodeEncodeError] with
    nothing written when it cannot.  Every string matching
    [^[A-Za-z_][A-Za-z0-9_]*$] is accepted, and an ASCII string that does
    not match is refused; a string with other code points is accepted when
    the Unicode tables behind [isidentifier] say so. *)
Theorem domain_syntax_check :
  forall repo s cv m d out,
    ascii_tables xid_start xid_continue ->
    manifest_loaded fs repo s m ->
    has_required_fields m = true ->
    dict_get m (lit "domain") = Some (PStr d) ->
    (isidentifier xid_start xid_continue d = true ->
     passes (domain_block (PDict m) (manifest_json repo s)) out
     /\ validate repo (PStr s) cv out
        = def (implementations_block (PDict m) (addon_dir repo s)
                 (manifest_json repo s) (PStr s) ;;
               version_block (PDict m) (manifest_json repo s) (PStr s) cv ;;
               return_ true) out)
    /\ (isidentifier xid_start xid_continue d = false ->
        accepts (annotation_line
                   (lit "Invalid domain '" ++ d
                    ++ lit "'. Must be a valid identifier (alphanumeric, underscore).")
                   (manifest_json repo s)) = true ->
        validate repo (PStr s) cv out
        = (Value false,
           out ++ located_error
                    (lit "Invalid domain '" ++ d
                     ++ lit "'. Must be a valid identifier (alphanumeric, underscore).")
                    (manifest_json repo s)))
    /\ (isidentifier xid_start xid_continue d = false ->
        accepts (annotation_line
                   (lit "Invalid domain '" ++ d
                    ++ lit "'. Must be a valid identifier (alphanumeric, underscore).")
                   (manifest_json repo s)) = false ->
        validate repo (PStr s) cv out
        = (Raised (UnicodeEncodeError
                     (annotation_line
                        (lit "Invalid domain '" ++ d
                         ++ lit "'. Must be a valid identifier (alphanumeric, underscore).")
                        (manifest_json repo s))),
           out))
    /\ (ascii_identifier d = true ->
        isidentifier xid_start xid_continue d = true)
    /\ (forallb is_ascii d = true -> ascii_identifier d = false ->
        isidentifier xid_start xid_continue d = false).
Proof.
  intros repo s cv m d out Htab Hload Hreq Hd.
  pose proof (domain_block_string m d (manifest_json repo s) out Hd) as Hblock.
  pose proof (manifest_json_not_empty repo s) as Hne.
  split; [|split; [|split; [|split]]].
  - intro Hok. split.
    + unfold passes. rewrite Hblock, Hok. reflexivity.
    + rewrite (validate_after_fields repo s cv m out Hload Hreq).
      unfold def, bind at 1. rewrite Hblock, Hok. reflexivity.
  - intros Hbad Henc.
    rewrite (validate_after_fields repo s cv m out Hload Hreq).
    unfold def, bind at 1. rewrite Hblock, Hbad.
    reported Hne Henc. reflexivity.
  - intros Hbad Henc.
    rewrite (validate_after_fields repo s cv m out Hload Hreq).
    unfold def, bind at 1. rewrite Hblock, Hbad.
    rewrite <- (annotation_located _ _ Hne) in Henc.
    rewrite (fail_refused stdout_encodes bool unit _ _ _ _ false out Henc).
    rewrite (annotation_located _ _ Hne). reflexivity.
  - intro Hok.
    rewrite (isidentifier_ascii d Htab (ascii_identifier_is_ascii d Hok)).
    exact Hok.
  - intros Hd' Hno. rewrite (isidentifier_ascii d Htab Hd'). exact Hno.
Qed.

Lemma validate_after_domain repo s cv m d out :
  manifest_loaded fs repo s m ->
  has_required_fields m = true ->
  dict_get m (lit "domain") = Some (PStr d) ->
  isidentifier xid_start xid_continue d = true ->
  validate repo (PStr s) cv out
  = def (implementations_block (PDict m) (addon_dir repo s)
           (manifest_json repo s) (PStr s) ;;
         version_block (PDict m) (manifest_json repo s) (PStr s) cv ;;
         return_ true) out.
Proof.
  intros Hload Hreq Hd Hok.
  rewrite (validate_after_fields repo s cv m out Hload Hreq).
  unfold def, bind at 1.
  rewrite (domain_block_string m d (manifest_json repo s) out Hd), Hok.
  reflexivity.
Qed.

(** *** The [implementations] map *)


(** The fallback branch: [implementations] is falsy or not a dict. *)
Lemma implementations_fallback m v dir path s out :
  get_or_none m (lit "implementations") = v ->
  truthy v = false \/ isinstance_dict v = false ->
  path_exists fs (path_join dir (lit "integration.py")) = false ->
  implementations_block (PDict m) dir path (PStr s) out
  = fail (lit "manifest.json in '" ++ s
          ++ lit "' missing 'implementations' map, and no implicit 'integration.py' found.")
         path out.
Proof.
  intros Hv Hc Hex.
  assert (Hc' : negb (truthy v) || negb (isinstance_dict v) = true).
  { destruct Hc as [-> | ->]; [reflexivity | apply orb_true_r]. }
  unfold check_implementations.
  unfold bind at 1, eval at 1, next at 1. cbn [method_get].
  rewrite Hv, Hc', Hex. cbn [fmt].
  unfold bind at 1.
  destruct (fail _ path out) as [[[]|r|e] o] eqn:E; try reflexivity.
  unfold bind in E. destruct (error _ _ _ _ _ out) as [[[]|r|e] o'];
    discriminate E.
Qed.

Lemma implementations_falsy_found m dir path id out :
  truthy (get_or_none m (lit "implementations")) = false ->
  path_exists fs (path_join dir (lit "integration.py")) = true ->
  implementations_block (PDict m) dir path id out = (Next tt, out).
Proof.
  intros Hf Hex. unfold check_implementations.
  unfold bind at 1, eval at 1, next at 1. cbn [method_get].
  rewrite Hf, Hex. cbn [negb orb]. reflexivity.
Qed.

Lemma implementations_not_dict m v dir path id out :
  dict_get m (lit "implementations") = Some v ->
  truthy v = true -> isinstance_dict v = false ->
  path_exists fs (path_join dir (lit "integration.py")) = true ->
  implementations_block (PDict m) dir path id out = (Raise AttributeError, out).
Proof.
  intros Hv Ht Hd Hex.
  unfold check_implementations, bind, eval, next, raise.
  cbn [method_get]. unfold get_or_none. rewrite Hv, Ht, Hd, Hex. cbn [negb orb].
  destruct v; try discriminate Hd; reflexivity.
Qed.

Lemma implementation_files_prefix before rest dir id out :
  files_exist fs dir before ->
  files_block (before ++ rest) dir id out = files_block rest dir id out.
Proof.
  induction 1 as [|[lang filename] before [f [Hf Hex]] _ IH].
  - reflexivity.
  - cbn [app implementation_files]. cbn [snd] in Hf. subst filename.
    unfold bind at 1, eval, next. cbn [os_path_join]. rewrite Hex. exact IH.
Qed.

Lemma implementation_files_found items dir id out :
  files_exist fs dir items -> files_block items dir id out = (Next tt, out).
Proof.
  intro H. rewrite <- (app_nil_r items).
  rewrite (implementation_files_prefix items [] dir id out H). reflexivity.
Qed.

Lemma implementation_file_missing lang (f : pystr) rest dir s out :
  path_exists fs (path_join dir f) = false ->
  files_block ((lang, PStr f) :: rest) dir (PStr s) out
  = fail (lit "Implementation file '" ++ f ++ lit "' for '" ++ lang
          ++ lit "' not found in '" ++ s ++ lit "'")
         (path_join dir f) out.
Proof.
  intro Hex. cbn [implementation_files].
  unfold bind at 1, eval, next. cbn [os_path_join]. rewrite Hex. reflexivity.
Qed.

Lemma implementations_block_map m items dir path id out :
  dict_get m (lit "implementations") = Some (PDict items) ->
  items <> [] ->
  implementations_block (PDict m) dir path id out
  = files_block items dir id out.
Proof.
  intros Hi Hne. unfold check_implementations.
  unfold bind at 1, eval at 1, next at 1. cbn [method_get].
  unfold get_or_none. rewrite Hi.
  destruct items as [|kv items]; [contradiction|].
  cbn [truthy negb orb isinstance_dict].
  unfold bind at 1, next at 1. unfold bind at 1, eval, next. cbn [method_items].
  reflexivity.
Qed.

Lemma validate_after_implementations repo s cv m d out :
  manifest_loaded fs repo s m ->
  has_required_fields m = true ->
  dict_get m (lit "domain") = Some (PStr d) ->
  isidentifier xid_start xid_continue d = true ->
  passes (implementations_block (PDict m) (addon_dir repo s)
            (manifest_json repo s) (PStr s)) out ->
  validate repo (PStr s) cv out
  = def (version_block (PDict m) (manifest_json repo s) (PStr s) cv ;;
         return_ true) out.
Proof.
  intros Hload Hreq Hd Hok Himpl.
  rewrite (validate_after_domain repo s cv m d out Hload Hreq Hd Hok).
  unfold def, bind at 1. rewrite Himpl. reflexivity.
Qed.

Lemma exists_not_absent p : fs p <> Absent -> path_exists fs p = true.
Proof. unfold path_exists. destruct (fs p); [contradiction| |]; reflexivity. Qed.

Lemma absent_not_exists p : fs p = Absent -> path_exists fs p = false.
Proof. unfold path_exists. intros ->. reflexivity. Qed.


(** C9: a manifest whose [domain] is present but not a string, and a
    manifest whose [implementations] is truthy but not a dict while
    [integration.py] exists, make [validate_addon_directory] raise
    [AttributeError]: it neither returns a boolean nor reports an error. *)
Theorem uncaught_attribute_errors :
  forall repo s cv m out,
    manifest_loaded fs repo s m ->
    has_required_fields m = true ->
    (forall v,
        dict_get m (lit "domain") = Some v ->
        isinstance_str v = false ->
        validate repo (PStr s) cv out = (Raised AttributeError, out))
    /\ (forall d v,
           dict_get m (lit "domain") = Some (PStr d) ->
           isidentifier xid_start xid_continue d = true ->
           dict_get m (lit "implementations") = Some v ->
           truthy v = true ->
           isinstance_dict v = false ->
           fs (path_join (addon_dir repo s) (lit "integration.py")) <> Absent ->
           validate repo (PStr s) cv out = (Raised AttributeError, out)).
Proof.
  intros repo s cv m out Hload Hreq. split.
  - intros v Hd Hv.
    rewrite (validate_after_fields repo s cv m out Hload Hreq).
    unfold def, bind at 1.
    rewrite (domain_block_not_string m v (manifest_json repo s) out Hd Hv).
    reflexivity.
  - intros d v Hd Hok Hi Ht Hnd Hex.
    rewrite (validate_after_domain repo s cv m d out Hload Hreq Hd Hok).
    unfold def, bind at 1.
    rewrite (implementations_not_dict m v (addon_dir repo s)
               (manifest_json repo s) (PStr s) out Hi Ht Hnd
               (exists_not_absent _ Hex)).
    reflexivity.
Qed.

(** X3: with a non-empty [implementations] map, the files are looked up in
    the order of the map under the addon directory.  The first entry whose
    file does not exist fails the addon with the missing-file error, which
    names the file, the language tag and the addon and is located at the
    file's path, when standard output can encode the annotation; whether
    [integration.py] exists plays no part.  When every file exists the
    check passes and validation goes on with the version check. *)
Theorem implementation_files_checked :
  forall repo s cv m d items out,
    manifest_loaded fs repo s m ->
    has_required_fields m = true ->
    dict_get m (lit "domain") = Some (PStr d) ->
    isidentifier xid_start xid_continue d = true ->
    dict_get m (lit "implementations") = Some (PDict items) ->
    items <> [] ->
    (forall before lang (f : pystr) after,
        items = before ++ (lang, PStr f) :: after ->
        files_exist fs (addon_dir repo s) before ->
        f <> [] ->
        path_exists fs (path_join (addon_dir repo s) f) = false ->
        accepts (annotation_line
                   (lit "Implementation file '" ++ f ++ lit "' for '" ++ lang
                    ++ lit "' not found in '" ++ s ++ lit "'")
                   (path_join (addon_dir repo s) f)) = true ->
        validate repo (PStr s) cv out
        = (Value false,
           out ++ located_error
                    (lit "Implementation file '" ++ f ++ lit "' for '" ++ lang
                     ++ lit "' not found in '" ++ s ++ lit "'")
                    (path_join (addon_dir repo s) f)))
    /\ (files_exist fs (addon_dir repo s) items ->
        validate repo (PStr s) cv out
        = def (version_block (PDict m) (manifest_json repo s) (PStr s) cv ;;
               return_ true) out).
Proof.
  intros repo s cv m d items out Hload Hreq Hd Hok Hi Hne.
  rewrite (validate_after_domain repo s cv m d out Hload Hreq Hd Hok).
  split.
  - intros before lang f after Hsplit Hbefore Hf Hmissing Henc.
    unfold def, bind at 1.
    rewrite (implementations_block_map m items _ _ _ out Hi Hne).
    subst items.
    rewrite (implementation_files_prefix before _ _ _ out Hbefore).
    rewrite (implementation_file_missing lang f after _ s out Hmissing).
    reported (path_join_not_empty (addon_dir repo s) f Hf) Henc. reflexivity.
  - intro Hall.
    unfold def, bind at 1.
    rewrite (implementations_block_map m items _ _ _ out Hi Hne).
    rewrite (implementation_files_found items _ _ out Hall).
    reflexivity.
Qed.

(** X4: a file name in the [implementations] map that is not a string
    makes [validate_addon_directory] raise [TypeError] at [os.path.join],
    once the entries before it were found; nothing is written. *)
Theorem implementation_filename_not_string :
  forall repo s cv m d items before lang v after out,
    manifest_loaded fs repo s m ->
    has_required_fields m = true ->
    dict_get m (lit "domain") = Some (PStr d) ->
    isidentifier xid_start xid_continue d = true ->
    dict_get m (lit "implementations") = Some (PDict items) ->
    items = before ++ (lang, v) :: after ->
    files_exist fs (addon_dir repo s) before ->
    isinstance_str v = false ->
    validate repo (PStr s) cv out = (Raised TypeError, out).
Proof.
  intros repo s cv m d items before lang v after out
         Hload Hreq Hd Hok Hi Hsplit Hbefore Hv.
  rewrite (validate_after_domain repo s cv m d out Hload Hreq Hd Hok).
  unfold def, bind at 1.
  rewrite (implementations_block_map m items _ _ _ out Hi);
    [|subst items; destruct before; discriminate].
  subst items.
  rewrite (implementation_files_prefix before _ _ _ out Hbefore).
  cbn [implementation_files]. unfold bind at 1, eval.
  destruct v; try discriminate Hv; reflexivity.
Qed.

(** X5: an [implementations] value that is falsy ([{}], [[]], [""], [0],
    [null], [false]) counts as absent: with [integration.py] the check
    passes.  Without [integration.py], a value that is falsy or not a dict
    fails the addon with the missing-implementations error, located at the
    manifest path, when standard output can encode the annotation. *)
Theorem implementations_falsy_or_not_dict :
  forall repo s cv m d v out,
    manifest_loaded fs repo s m ->
    has_required_fields m = true ->
    dict_get m (lit "domain") = Some (PStr d) ->
    isidentifier xid_start xid_continue d = true ->
    dict_get m (lit "implementations") = Some v ->
    (truthy v = false ->
     fs (path_join (addon_dir repo s) (lit "integration.py")) <> Absent ->
     validate repo (PStr s) cv out
     = def (version_block (PDict m) (manifest_json repo s) (PStr s) cv ;;
            return_ true) out)
    /\ (truthy v = false \/ isinstance_dict v = false ->
        fs (path_join (addon_dir repo s) (lit "integration.py")) = Absent ->
        accepts (annotation_line
                   (lit "manifest.json in '" ++ s
                    ++ lit "' missing 'implementations' map, and no implicit 'integration.py' found.")
                   (manifest_json repo s)) = true ->
        validate repo (PStr s) cv out
        = (Value false,
           out ++ located_error
                    (lit "manifest.json in '" ++ s
                     ++ lit "' missing 'implementations' map, and no implicit 'integration.py' found.")
                    (manifest_json repo s))).
Proof.
  intros repo s cv m d v out Hload Hreq Hd Hok Hi.
  assert (Hget : get_or_none m (lit "implementations") = v).
  { unfold get_or_none. rewrite Hi. reflexivity. }
  split.
  - intros Hf Hex.
    apply (validate_after_implementations repo s cv m d out
             Hload Hreq Hd Hok).
    apply implementations_falsy_found.
    + rewrite Hget. exact Hf.
    + apply exists_not_absent. exact Hex.
  - intros Hv Habs Henc.
    rewrite (validate_after_domain repo s cv m d out Hload Hreq Hd Hok).
    unfold def, bind at 1.
    rewrite (implementations_fallback m v (addon_dir repo s)
               (manifest_json repo s) s out Hget Hv
               (absent_not_exists _ Habs)).
    reported (manifest_json_not_empty repo s) Henc. reflexivity.
Qed.

Lemma path_join_absolute (a b : pystr) :
  startswith b [SLASH] = true -> path_join a b = b.
Proof. intro H. unfold path_join. rewrite H. reflexivity. Qed.

Lemma absolute_not_empty (f : pystr) : startswith f [SLASH] = true -> f <> [].
Proof. destruct f; [discriminate|discriminate]. Qed.

(** X6: file names are not confined to the addon directory.  A file name
    in [implementations] that starts with [/] is looked up at that
    absolute path: the addon passes the check when the path exists
    anywhere on the file system, whatever the addon directory holds;
    otherwise it fails with the missing-file error, whose annotation is
    located at that absolute path, when standard output can encode the
    annotation. *)
Theorem implementation_file_absolute :
  forall repo s cv m d lang (f : pystr) out,
    manifest_loaded fs repo s m ->
    has_required_fields m = true ->
    dict_get m (lit "domain") = Some (PStr d) ->
    isidentifier xid_start xid_continue d = true ->
    dict_get m (lit "implementations") = Some (PDict [(lang, PStr f)]) ->
    startswith f [SLASH] = true ->
    (fs f <> Absent ->
     validate repo (PStr s) cv out
     = def (version_block (PDict m) (manifest_json repo s) (PStr s) cv ;;
            return_ true) out)
    /\ (fs f = Absent ->
        accepts (annotation_line
                   (lit "Implementation file '" ++ f ++ lit "' for '" ++ lang
                    ++ lit "' not found in '" ++ s ++ lit "'")
                   f) = true ->
        validate repo (PStr s) cv out
        = (Value false,
           out ++ located_error
                    (lit "Implementation file '" ++ f ++ lit "' for '" ++ lang
                     ++ lit "' not found in '" ++ s ++ lit "'")
                    f)).
Proof.
  intros repo s cv m d lang f out Hload Hreq Hd Hok Hi Habs.
  rewrite (validate_after_domain repo s cv m d out Hload Hreq Hd Hok).
  split.
  - intro Hf. unfold def, bind at 1.
    rewrite (implementations_block_map m _ _ _ _ out Hi); [|discriminate].
    rewrite (implementation_files_found _ _ _ out); [reflexivity|].
    constructor; [|constructor]. exists f. split; [reflexivity|].
    rewrite (path_join_absolute _ f Habs). apply exists_not_absent. exact Hf.
  - intros Hf Henc. unfold def, bind at 1.
    rewrite (implementations_block_map m _ _ _ _ out Hi); [|discriminate].
    rewrite (implementation_file_missing lang f [] _ s out);
      [|rewrite (path_join_absolute _ f Habs);
        apply absent_not_exists; exact Hf].
    rewrite (path_join_absolute _ f Habs).
    reported (absolute_not_empty f Habs) Henc. reflexivity.
Qed.

(** *** The version check *)

Lemma validate_at_version_check repo s cv m out :
  reaches repo s m out ->
  validate repo (PStr s) cv out
  = def (version_block (PDict m) (manifest_json repo s) (PStr s) cv ;;
         return_ true) out.
Proof.
  intros [Hload [Hreq [[d [Hd Hok]] Himpl]]].
  apply (validate_after_implementations repo s cv m d out
           Hload Hreq Hd Hok Himpl).
Qed.

Lemma version_block_skipped m path id cv out :
  version = None
  \/ truthy (get_or_none m (lit "min_core_version")) = false
  \/ some_str_truthy cv = false ->
  version_block (PDict m) path id cv out = (Next tt, out).
Proof.
  intro H. unfold check_core_version, bind, eval, next.
  cbn [method_get].
  destruct H as [H|[H|H]]; rewrite H.
  - destruct (truthy _ && some_str_truthy cv); reflexivity.
  - reflexivity.
  - rewrite andb_false_r. reflexivity.
Qed.

(** The text of the error of the [except] branch. *)
Lemma version_block_unparseable vm m path s (c : pystr) e out :
  version = Some vm ->
  truthy (get_or_none m (lit "min_core_version")) = true ->
  c <> [] ->
  parse vm (get_or_none m (lit "min_core_version")) = inr e
  \/ (exists a, parse vm (get_or_none m (lit "min_core_version")) = inl a
                /\ parse vm (PStr c) = inr e) ->
  version_block (PDict m) path (PStr s) (Some c) out
  = fail (lit "Version comparison failed for '" ++ s ++ lit "' (min: "
          ++ fmt py_str (get_or_none m (lit "min_core_version"))
          ++ lit ", core: " ++ c ++ lit "): " ++ e)
         path out.
Proof.
  intros Hv Ht Hc He.
  unfold check_core_version.
  unfold bind at 1, eval, next. cbn [method_get]. rewrite Hv, Ht.
  destruct c as [|x c]; [contradiction|].
  cbn [some_str_truthy andb fmt_opt_str py_opt fmt].
  destruct He as [-> | [a [-> ->]]]; reflexivity.
Qed.




(** C2 (amended): when the version capability is available, the supplied
    core version is not empty and [min_core_version] is truthy, a
    [min_core_version] that does not parse makes the addon fail with the
    version-comparison error, located at the manifest path, when standard
    output can encode the annotation.  When the capability is missing, or
    [min_core_version] is falsy (the empty string included), or no
    non-empty core version is supplied, the check is skipped and the addon
    passes. *)
Theorem unparseable_min_core_version :
  forall repo s m out,
    reaches repo s m out ->
    (forall vm (c : pystr) e,
        version = Some vm ->
        truthy (get_or_none m (lit "min_core_version")) = true ->
        c <> [] ->
        parse vm (get_or_none m (lit "min_core_version")) = inr e ->
        accepts (annotation_line
                   (lit "Version comparison failed for '" ++ s
                    ++ lit "' (min: "
                    ++ fmt py_str (get_or_none m (lit "min_core_version"))
                    ++ lit ", core: " ++ c ++ lit "): " ++ e)
                   (manifest_json repo s)) = true ->
        validate repo (PStr s) (Some c) out
        = (Value false,
           out ++ located_error
                    (lit "Version comparison failed for '" ++ s
                     ++ lit "' (min: "
                     ++ fmt py_str (get_or_none m (lit "min_core_version"))
                     ++ lit ", core: " ++ c ++ lit "): " ++ e)
                    (manifest_json repo s)))
    /\ (forall cv,
           version = None
           \/ truthy (get_or_none m (lit "min_core_version")) = false
           \/ some_str_truthy cv = false ->
           validate repo (PStr s) cv out = (Value true, out)).
Proof.
  intros repo s m out Hreach. split.
  - intros vm c e Hv Ht Hc He Henc.
    rewrite (validate_at_version_check repo s (Some c) m out Hreach).
    unfold def, bind at 1.
    rewrite (version_block_unparseable vm m (manifest_json repo s) s
               c e out Hv Ht Hc (or_introl He)).
    reported (manifest_json_not_empty repo s) Henc. reflexivity.
  - intros cv Hskip.
    rewrite (validate_at_version_check repo s cv m out Hreach).
    unfold def, bind at 1.
    rewrite (version_block_skipped m (manifest_json repo s) (PStr s) cv out Hskip).
    reflexivity.
Qed.


(** X7: when [min_core_version] parses but the supplied core version does
    not, the addon fails with the version-comparison error, which carries
    the text of the exception raised for the core version and is located
    at the manifest path, when standard output can encode the
    annotation. *)
Theorem core_version_unparseable :
  forall repo s m out vm (c : pystr) a e,
    reaches repo s m out ->
    version = Some vm ->
    truthy (get_or_none m (lit "min_core_version")) = true ->
    c <> [] ->
    parse vm (get_or_none m (lit "min_core_version")) = inl a ->
    parse vm (PStr c) = inr e ->
    accepts (annotation_line
               (lit "Version comparison failed for '" ++ s
                ++ lit "' (min: "
                ++ fmt py_str (get_or_none m (lit "min_core_version"))
                ++ lit ", core: " ++ c ++ lit "): " ++ e)
               (manifest_json repo s)) = true ->
    validate repo (PStr s) (Some c) out
    = (Value false,
       out ++ located_error
                (lit "Version comparison failed for '" ++ s
                 ++ lit "' (min: "
                 ++ fmt py_str (get_or_none m (lit "min_core_version"))
                 ++ lit ", core: " ++ c ++ lit "): " ++ e)
                (manifest_json repo s)).
Proof.
  intros repo s m out vm c a e Hreach Hv Ht Hc Ha He Henc.
  rewrite (validate_at_version_check repo s (Some c) m out Hreach).
  unfold def, bind at 1.
  rewrite (version_block_unparseable vm m (manifest_json repo s) s
             c e out Hv Ht Hc (or_intror (ex_intro _ a (conj Ha He)))).
  reported (manifest_json_not_empty repo s) Henc. reflexivity.
Qed.

(** *** The output discipline *)

Lemma quiet_bind {A B} (m : body bool A) (k : A -> body bool B) out :
  one_error_or_quiet (m out) out ->
  (forall a, one_error_or_quiet (k a out) out) ->
  one_error_or_quiet (bind m k out) out.
Proof.
  intros Hm Hk. unfold bind.
  destruct (m out) as [[a|r|e] o]; cbn in Hm.
  - subst o. apply Hk.
  - exact Hm.
  - exact Hm.
Qed.

Lemma quiet_try {A} (b : body bool A) (handler : exn -> body bool A) out :
  one_error_or_quiet (b out) out ->
  (forall e, one_error_or_quiet (handler e out) out) ->
  one_error_or_quiet (try_except b handler out) out.
Proof.
  intros Hb Hh. unfold try_except.
  destruct (b out) as [[a|r|e] o]; cbn in Hb.
  - subst o. reflexivity.
  - exact Hb.
  - subst o. apply Hh.
Qed.

Lemma quiet_eval {A} (r : result A) out :
  one_error_or_quiet (eval (R:=bool) r out) out.
Proof. destruct r; reflexivity. Qed.

Lemma quiet_fail {A} message file out :
  one_error_or_quiet
    ((@error stdout_encodes bool message file None None ;;
      return_ (A:=A) false) out) out.
Proof.
  destruct (fail_outcome stdout_encodes bool A message file None None
              false out) as [-> | ->].
  - cbn. exists message, file. reflexivity.
  - reflexivity.
Qed.

Lemma quiet_required_fields fields manifest path out :
  one_error_or_quiet (fields_block fields manifest path out) out.
Proof.
  induction fields as [|field rest IH]; [reflexivity|].
  cbn [required_fields_check]. apply quiet_bind; [apply quiet_eval|].
  intros []; cbn [negb]; [exact IH | apply quiet_fail].
Qed.

Lemma quiet_implementation_files items dir id out :
  one_error_or_quiet (files_block items dir id out) out.
Proof.
  induction items as [|[lang filename] rest IH]; [reflexivity|].
  cbn [implementation_files]. apply quiet_bind; [apply quiet_eval|].
  intro file_path. destruct (negb (path_exists fs file_path));
    [apply quiet_fail | exact IH].
Qed.

Lemma quiet_domain manifest path out :
  one_error_or_quiet (domain_block manifest path out) out.
Proof.
  unfold domain_validation. apply quiet_bind; [apply quiet_eval|].
  intro domain. apply quiet_bind; [apply quiet_eval|].
  intros []; cbn [negb]; [reflexivity | apply quiet_fail].
Qed.

Lemma quiet_implementations manifest dir path id out :
  one_error_or_quiet (implementations_block manifest dir path id out) out.
Proof.
  unfold check_implementations. apply quiet_bind; [apply quiet_eval|].
  intro implementations. apply quiet_bind.
  - destruct (negb (truthy implementations)
              || negb (isinstance_dict implementations)); [|reflexivity].
    destruct (path_exists fs (path_join dir (lit "integration.py")));
      [reflexivity | apply quiet_fail].
  - intros _. destruct (truthy implementations); [|reflexivity].
    apply quiet_bind; [apply quiet_eval|].
    intro items. apply quiet_implementation_files.
Qed.

Lemma quiet_version manifest path id cv out :
  one_error_or_quiet (version_block manifest path id cv out) out.
Proof.
  unfold check_core_version. apply quiet_bind; [apply quiet_eval|].
  intro min_ver.
  destruct (truthy min_ver && some_str_truthy cv); [|reflexivity].
  destruct version as [vm|]; [|reflexivity].
  destruct (parse vm min_ver) as [a|e]; [|apply quiet_fail].
  destruct (parse vm (py_opt cv)) as [b|e]; [|apply quiet_fail].
  apply quiet_try.
  - destruct (gt vm a b); [apply quiet_fail | reflexivity].
  - intro e. apply quiet_fail.
Qed.

(** *** Independence of earlier output *)

Lemma framed_bind {R A B} (m : body R A) (k : A -> body R B) :
  framed m -> (forall a, framed (k a)) -> framed (bind m k).
Proof.
  intros Hm Hk out. unfold bind. rewrite (Hm out).
  destruct (m []) as [[a|r|e] w]; cbn [fst snd].
  - rewrite (Hk a (out ++ w)), (Hk a w). cbn [fst snd].
    rewrite app_assoc. reflexivity.
  - reflexivity.
  - reflexivity.
Qed.

Lemma framed_try {R A} (b : body R A) (handler : exn -> body R A) :
  framed b -> (forall e, framed (handler e)) -> framed (try_except b handler).
Proof.
  intros Hb Hh out. unfold try_except. rewrite (Hb out).
  destruct (b []) as [[a|r|e] w]; cbn [fst snd].
  - reflexivity.
  - reflexivity.
  - rewrite (Hh e (out ++ w)), (Hh e w). cbn [fst snd].
    rewrite app_assoc. reflexivity.
Qed.

Lemma framed_pure {X} (x : X) : framed (fun out => (x, out)).
Proof. intro out. cbn [fst snd]. rewrite app_nil_r. reflexivity. Qed.

Lemma framed_eval {R A} (r : result A) : framed (eval (R:=R) r).
Proof. destruct r; apply framed_pure. Qed.

Lemma framed_print {R} text : framed (@print stdout_encodes R text).
Proof.
  intro out. unfold print. destruct (accepts text); cbn [fst snd].
  - reflexivity.
  - rewrite app_nil_r. reflexivity.
Qed.

Lemma framed_print_stderr {R} text : framed (print_stderr (R:=R) text).
Proof. intro out. reflexivity. Qed.

Lemma framed_error {R} message file line col :
  framed (@error stdout_encodes R message file line col).
Proof.
  unfold error. apply framed_bind; [apply framed_print|].
  intros _. apply framed_print_stderr.
Qed.

Lemma framed_fail {A} message file :
  framed (@error stdout_encodes bool message file None None ;;
          return_ (A:=A) false).
Proof.
  apply framed_bind; [apply framed_error | intros _; apply framed_pure].
Qed.

Lemma framed_def {R} (b : body R R) : framed b -> framed (def b).
Proof.
  intros Hb out. unfold def. rewrite (Hb out).
  destruct (b []) as [[r|r|e] w]; reflexivity.
Qed.

Lemma framed_call {R A} (f : output -> result A * output) :
  framed f -> framed (call (R:=R) f).
Proof.
  intros Hf out. unfold call. rewrite (Hf out).
  destruct (f []) as [[a|e] w]; reflexivity.
Qed.

Lemma framed_required_fields fields manifest path :
  framed (fields_block fields manifest path).
Proof.
  induction fields as [|field rest IH]; [apply (framed_pure (Next tt))|].
  cbn [required_fields_check]. apply framed_bind; [apply framed_eval|].
  intros []; cbn [negb]; [exact IH | apply framed_fail].
Qed.

Lemma framed_implementation_files items dir id :
  framed (files_block items dir id).
Proof.
  induction items as [|[lang filename] rest IH];
    [apply (framed_pure (Next tt))|].
  cbn [implementation_files]. apply framed_bind; [apply framed_eval|].
  intro file_path. destruct (negb (path_exists fs file_path));
    [apply framed_fail | exact IH].
Qed.

Lemma framed_domain manifest path : framed (domain_block manifest path).
Proof.
  unfold domain_validation. apply framed_bind; [apply framed_eval|].
  intro domain. apply framed_bind; [apply framed_eval|].
  intros []; cbn [negb]; [apply (framed_pure (Next tt)) | apply framed_fail].
Qed.

Lemma framed_implementations manifest dir path id :
  framed (implementations_block manifest dir path id).
Proof.
  unfold check_implementations. apply framed_bind; [apply framed_eval|].
  intro implementations. apply framed_bind.
  - destruct (negb (truthy implementations)
              || negb (isinstance_dict implementations));
      [|apply (framed_pure (Next tt))].
    destruct (path_exists fs (path_join dir (lit "integration.py")));
      [apply (framed_pure (Next tt)) | apply framed_fail].
  - intros _. destruct (truthy implementations);
      [|apply (framed_pure (Next tt))].
    apply framed_bind; [apply framed_eval|].
    intro items. apply framed_implementation_files.
Qed.

Lemma framed_version manifest path id cv :
  framed (version_block manifest path id cv).
Proof.
  unfold check_core_version. apply framed_bind; [apply framed_eval|].
  intro min_ver.
  destruct (truthy min_ver && some_str_truthy cv);
    [|apply (framed_pure (Next tt))].
  destruct version as [vm|]; [|apply (framed_pure (Next tt))].
  destruct (parse vm min_ver) as [a|e]; [|apply framed_fail].
  destruct (parse vm (py_opt cv)) as [b|e]; [|apply framed_fail].
  apply framed_try.
  - destruct (gt vm a b); [apply framed_fail | apply (framed_pure (Next tt))].
  - intro e. apply framed_fail.
Qed.

Lemma framed_validate repo addon_id cv : framed (validate repo addon_id cv).
Proof.
  unfold validate_addon_directory. apply framed_def.
  apply framed_bind; [apply framed_eval|]. intro addon_path.
  apply framed_bind.
  { destruct (negb (path_isdir fs addon_path));
      [apply framed_fail | apply (framed_pure (Next tt))]. }
  intros _. apply framed_bind.
  { destruct (negb (path_exists fs _));
      [apply framed_fail | apply (framed_pure (Next tt))]. }
  intros _. apply framed_bind.
  { destruct (json_load fs _) as [v|e|e];
      [apply (framed_pure (Next v)) | apply framed_fail
       | apply (framed_pure (Raise e))]. }
  intro manifest.
  apply framed_bind; [apply framed_required_fields|]. intros _.
  apply framed_bind; [apply framed_domain|]. intros _.
  apply framed_bind; [apply framed_implementations|]. intros _.
  apply framed_bind; [apply framed_version|]. intros _.
  apply (framed_pure (Return true)).
Qed.

Lemma bind_not_next {R A B} (m : body R A) (k : A -> body R B) out :
  (forall a o r, fst (k a o) <> Next r) ->
  forall r, fst (bind m k out) <> Next r.
Proof.
  intros Hk r. unfold bind. destruct (m out) as [[a|r'|e] o].
  - apply Hk.
  - discriminate.
  - discriminate.
Qed.

Lemma def_reports_once (b : body bool bool) out :
  one_error_or_quiet (b out) out ->
  (forall r, fst (b out) <> Next r) ->
  match def b out with
  | (Value true, out') => out' = out
  | (Value false, out') =>
      exists message file, out' = out ++ error_writes message file None None
  | (Raised _, out') => out' = out
  end.
Proof.
  unfold def. destruct (b out) as [[r|[|]|e] o]; cbn; intros H Hn; auto.
  exfalso. apply (Hn r). reflexivity.
Qed.

Lemma validate_output repo addon_id cv out :
  match validate repo addon_id cv out with
  | (Value true, out') => out' = out
  | (Value false, out') =>
      exists message file, out' = out ++ error_writes message file None None
  | (Raised _, out') => out' = out
  end.
Proof.
  unfold validate_addon_directory. apply def_reports_once.
  - apply quiet_bind; [apply quiet_eval|]. intro addon_path.
    apply quiet_bind.
    { destruct (negb (path_isdir fs addon_path));
        [apply quiet_fail | reflexivity]. }
    intros _. apply quiet_bind.
    { destruct (negb (path_exists fs _)); [apply quiet_fail | reflexivity]. }
    intros _. apply quiet_bind.
    { destruct (json_load fs _); [reflexivity | apply quiet_fail | reflexivity]. }
    intro manifest.
    apply quiet_bind; [apply quiet_required_fields|]. intros _.
    apply quiet_bind; [apply quiet_domain|]. intros _.
    apply quiet_bind; [apply quiet_implementations|]. intros _.
    apply quiet_bind; [apply quiet_version|]. intros _.
    reflexivity.
  - repeat (apply bind_not_next; intros ? ?). discriminate.
Qed.

(** X9: whatever the repository holds, [validate_addon_directory] writes
    nothing when it returns [True], exactly the two writes of one [error]
    call when it returns [False], and nothing when an exception leaves
    it: a failed addon is always reported, and only once.  What it returns
    and what it writes do not depend on what was written before. *)
Theorem validate_reports_once :
  forall repo addon_id cv out,
    match validate repo addon_id cv out with
    | (Value true, out') => out' = out
    | (Value false, out') =>
        exists message file,
          out' = out ++ error_writes message file None None
    | (Raised _, out') => out' = out
    end
    /\ validate repo addon_id cv out
       = (fst (validate repo addon_id cv []),
          out ++ snd (validate repo addon_id cv [])).
Proof.
  intros repo addon_id cv out. split.
  - apply validate_output.
  - apply framed_validate.
Qed.

End AddonProperties.

(* ================================================================= *)
(** ** The driver *)

Section DriverProperties.

Variable stdout_encodes xid_start xid_continue : N -> bool.
Variable py_str : pyvalue -> pystr.
Variable str_exn : exn -> pystr.
Variable V : Type.
Variable version : option (version_module V).
Variable fs : filesystem.

#[local] Abbreviation accepts := (encodable stdout_encodes).
#[local] Abbreviation validate :=
  (validate_addon_directory stdout_encodes xid_start xid_continue py_str
     str_exn version fs).
#[local] Abbreviation loader := (validate_addons_json stdout_encodes fs).
#[local] Abbreviation loop :=
  (addon_loop stdout_encodes xid_start xid_continue py_str str_exn version fs).
#[local] Abbreviation process :=
  (run_main stdout_encodes xid_start xid_continue py_str str_exn version fs).
#[local] Abbreviation valid :=
  (valid_entry stdout_encodes xid_start xid_continue py_str str_exn version
     fs).
#[local] Abbreviation printable := (printable_run stdout_encodes py_str).
#[local] Abbreviation reported_or_raised :=
  (@error_and_return pyvalue stdout_encodes PNone).

(** *** The banner *)

Lemma banner_printed R repo cv out :
  forallb accepts (banner_lines repo cv) = true ->
  (@print stdout_encodes R (lit "Validating repository at: " ++ repo) ;;
   if some_str_truthy cv then
     print stdout_encodes
       (lit "Checking compatibility against Core Version: "
        ++ fmt_opt_str cv)
   else next tt) out
  = (Next tt, out ++ banner repo cv).
Proof.
  unfold banner_lines, banner. cbn [forallb]. intro H.
  apply andb_prop in H. destruct H as [H1 H2].
  unfold bind. rewrite (print_written stdout_encodes R _ out H1).
  destruct (some_str_truthy cv).
  - cbn [forallb] in H2. apply andb_prop in H2. destruct H2 as [H2 _].
    rewrite (print_written stdout_encodes R _ _ H2).
    rewrite <- app_assoc. reflexivity.
  - reflexivity.
Qed.

Lemma banner_refused R repo cv out :
  forallb accepts (banner_lines repo cv) = false ->
  exists text ws,
    (@print stdout_encodes R (lit "Validating repository at: " ++ repo) ;;
     if some_str_truthy cv then
       print stdout_encodes
         (lit "Checking compatibility against Core Version: "
          ++ fmt_opt_str cv)
     else next tt) out
    = (Raise (UnicodeEncodeError text), out ++ ws)
    /\ reports_error ws = false.
Proof.
  unfold banner_lines. cbn [forallb]. intro H. unfold bind.
  destruct (print_outcome stdout_encodes R
              (lit "Validating repository at: " ++ repo) out)
    as [[H1 ->] | [H1 ->]].
  - rewrite H1 in H. cbn [andb] in H.
    destruct (some_str_truthy cv); [|discriminate H].
    cbn [forallb] in H. rewrite andb_true_r in H.
    unfold print. rewrite H. eexists _, _. split; reflexivity.
  - exists (lit "Validating repository at: " ++ repo), [].
    rewrite app_nil_r. split; reflexivity.
Qed.

Lemma main_after_banner repo cv out :
  forallb accepts (banner_lines repo cv) = true ->
  main stdout_encodes xid_start xid_continue py_str str_exn version fs
    repo cv out
  = (db <- call (loader repo) ;;
     (if negb (truthy db) then sys_exit 1 else next tt) ;;
     addons <- eval (subscript db (lit "addons")) ;;
     entries <- eval (iterate addons) ;;
     success <- loop entries 0%N true repo cv ;;
     conclude stdout_encodes success) (out ++ banner repo cv).
Proof.
  intro H. unfold main.
  pose proof (banner_printed Z repo cv out H) as Hb.
  unfold bind at 1 in Hb. unfold bind at 1.
  destruct (print stdout_encodes _ out) as [[[]|r|e] o]; try discriminate Hb.
  unfold bind at 1. rewrite Hb. reflexivity.
Qed.

(** A banner that standard output cannot encode ends the run in a
    traceback before the index is looked at. *)
Lemma process_banner_refused repo cv out :
  forallb accepts (banner_lines repo cv) = false ->
  exists text ws,
    process repo cv out = (Traceback (UnicodeEncodeError text), out ++ ws)
    /\ reports_error ws = false.
Proof.
  intro H. destruct (banner_refused Z repo cv out H) as [text [ws [Hb Hr]]].
  exists text, ws. split; [|exact Hr].
  unfold run_main, run, main.
  unfold bind at 1 in Hb. unfold bind at 1.
  destruct (print stdout_encodes _ out) as [[[]|r|e] o].
  - unfold bind at 1. rewrite Hb. reflexivity.
  - discriminate Hb.
  - inversion Hb; subst. reflexivity.
Qed.

(** What [main] does with the result of the loader. *)
Lemma process_after_loader repo cv out :
  forallb accepts (banner_lines repo cv) = true ->
  process repo cv out
  = match loader repo (out ++ banner repo cv) with
    | (Value db, out') =>
        if truthy db then
          run (addons <- eval (subscript db (lit "addons")) ;;
               entries <- eval (iterate addons) ;;
               success <- loop entries 0%N true repo cv ;;
               conclude stdout_encodes success) out'
        else (Exited 1, out')
    | (Raised e, out') => (Traceback e, out')
    end.
Proof.
  intro H. unfold run_main, run. rewrite (main_after_banner repo cv out H).
  unfold bind at 1, call.
  destruct (loader repo (out ++ banner repo cv)) as [[db|e] out'];
    [|reflexivity].
  unfold bind at 1. destruct (truthy db); reflexivity.
Qed.

(** *** The index loader *)

Lemma fail_if R A message file line col (r : R) out :
  (@error stdout_encodes R message file line col ;; return_ (A:=A) r) out
  = if accepts (annotation message file line col)
    then (Return r, out ++ error_writes message file line col)
    else (Raise (UnicodeEncodeError (annotation message file line col)), out).
Proof.
  destruct (accepts (annotation message file line col)) eqn:H.
  - unfold bind. rewrite (error_written stdout_encodes R _ _ _ _ out H).
    reflexivity.
  - apply fail_refused. exact H.
Qed.

Lemma loader_missing repo out :
  fs (index_json repo) = Absent ->
  loader repo out
  = reported_or_raised (lit "addons.json missing in repository root")
      (Some (index_json repo)) None None out.
Proof.
  unfold index_json. intro H.
  unfold validate_addons_json, def, path_exists.
  unfold bind at 1. rewrite H. cbn [negb]. rewrite fail_if.
  unfold error_and_return. destruct (accepts _); reflexivity.
Qed.

Lemma loader_invalid_json repo e out :
  fs (index_json repo) = Regular (DecodeError e) ->
  loader repo out
  = reported_or_raised (lit "Invalid JSON in addons.json: " ++ jde_msg e)
      (Some (index_json repo)) (Some (jde_lineno e)) (Some (jde_colno e))
      out.
Proof.
  unfold index_json. intro H.
  unfold validate_addons_json, def, path_exists, json_load.
  unfold bind at 1. unfold bind at 1. rewrite H. cbn [negb]. unfold next at 1.
  unfold bind at 1. rewrite fail_if.
  unfold error_and_return. destruct (accepts _); reflexivity.
Qed.

Lemma loader_parsed repo v out :
  fs (index_json repo) = Regular (Parsed v) ->
  loader repo out
  = match py_in (lit "addons") v with
    | Raised e => (Raised e, out)
    | Value false =>
        reported_or_raised
          (lit "addons.json must contain a top-level 'addons' list")
          (Some (index_json repo)) None None out
    | Value true =>
        match subscript v (lit "addons") with
        | Raised e => (Raised e, out)
        | Value addons =>
            if isinstance_list addons then (Value v, out)
            else
              reported_or_raised
                (lit "addons.json must contain a top-level 'addons' list")
                (Some (index_json repo)) None None out
        end
    end.
Proof.
  unfold index_json. intro H.
  unfold validate_addons_json, def, path_exists, json_load.
  unfold bind at 1. unfold bind at 1. rewrite H. cbn [negb]. unfold next at 1.
  unfold bind at 1. unfold next at 1. unfold bind at 1.
  destruct (py_in (lit "addons") v) as [[|]|e]; cbn [eval].
  - unfold next at 1. cbn [negb]. unfold bind at 1. unfold bind at 1.
    destruct (subscript v (lit "addons")) as [addons|e]; cbn [eval].
    + unfold next at 1. unfold next at 1.
      destruct (isinstance_list addons); cbn [negb].
      * unfold bind at 1. reflexivity.
      * unfold bind at 1. rewrite fail_if.
        unfold error_and_return. destruct (accepts _); reflexivity.
    + reflexivity.
  - unfold next at 1. cbn [negb]. unfold bind at 1. unfold next at 1.
    unfold bind at 1. rewrite fail_if.
    unfold error_and_return. destruct (accepts _); reflexivity.
  - reflexivity.
Qed.

Lemma loader_unreadable repo out :
  (fs (index_json repo) = Directory ->
   loader repo out = (Raised OSError, out))
  /\ (forall e, fs (index_json repo) = Regular (LoadRaises e) ->
                loader repo out = (Raised e, out)).
Proof.
  unfold index_json.
  split; [intro H | intros e H];
    unfold validate_addons_json, def, path_exists, json_load;
    unfold bind at 1; unfold bind at 1; rewrite H; cbn [negb];
    unfold next at 1; unfold bind at 1; reflexivity.
Qed.

Lemma loader_loaded repo index entries out :
  fs (index_json repo) = Regular (Parsed (PDict index)) ->
  dict_get index (lit "addons") = Some (PList entries) ->
  loader repo out = (Value (PDict index), out).
Proof.
  intros H Ha. rewrite (loader_parsed repo _ out H).
  cbn [py_in subscript]. unfold dict_has. rewrite Ha. reflexivity.
Qed.

(** An error located at a file, once standard output encodes it. *)
Lemma reported_located (message path : pystr) out :
  path <> [] ->
  accepts (annotation_line message path) = true ->
  reported_or_raised message (Some path) None None out
  = (Value PNone, out ++ located_error message path).
Proof.
  intros Hne Henc. unfold error_and_return, error_writes, located_error.
  rewrite (annotation_located message path Hne), Henc. reflexivity.
Qed.

Lemma reported_or_raised_ends repo cv message file line col out :
  exit_code
    (fst (match reported_or_raised message file line col out with
          | (Value db, out') =>
              if truthy db then
                run (addons <- eval (subscript db (lit "addons")) ;;
                     entries <- eval (iterate addons) ;;
                     success <- loop entries 0%N true repo cv ;;
                     conclude stdout_encodes success) out'
              else (Exited 1, out')
          | (Raised e, out') => (Traceback e, out')
          end)) = 1%Z.
Proof.
  unfold error_and_return. destruct (accepts _); reflexivity.
Qed.

(** *** The loop *)

Lemma process_loop repo cv index entries out :
  forallb accepts (banner_lines repo cv) = true ->
  fs (index_json repo) = Regular (Parsed (PDict index)) ->
  dict_get index (lit "addons") = Some (PList entries) ->
  process repo cv out
  = run (success <- loop entries 0%N true repo cv ;;
         conclude stdout_encodes success)
        (out ++ banner repo cv).
Proof.
  intros Hb H Ha. rewrite (process_after_loader repo cv out Hb).
  rewrite (loader_loaded repo index entries _ H Ha).
  assert (Ht : truthy (PDict index) = true).
  { destruct index; [discriminate Ha|reflexivity]. }
  rewrite Ht. unfold run.
  unfold bind at 1, eval at 1. cbn [subscript]. rewrite Ha. unfold next at 1.
  unfold bind at 1, eval at 1. cbn [iterate]. unfold next at 1.
  reflexivity.
Qed.

Lemma bind_assoc {R A B C} (m : body R A) (f : A -> body R B)
    (g : B -> body R C) out :
  bind (bind m f) g out = bind m (fun a => bind (f a) g) out.
Proof. unfold bind. destruct (m out) as [[a|r|e] o]; reflexivity. Qed.

Lemma bind_ext {R A B} (m : body R A) (f g : A -> body R B) out :
  (forall a o, f a o = g a o) -> bind m f out = bind m g out.
Proof.
  intro H. unfold bind. destruct (m out) as [[a|r|e] o]; auto.
Qed.

Lemma loop_app pre rest i success repo cv out :
  loop (pre ++ rest) i success repo cv out
  = (b <- loop pre i success repo cv ;;
     loop rest (i + N.of_nat (List.length pre))%N b repo cv) out.
Proof.
  revert i success out.
  induction pre as [|addon pre IH]; intros i success out.
  - cbn [app List.length]. cbn [addon_loop].
    unfold bind, next. rewrite N.add_0_r. reflexivity.
  - cbn [app List.length]. cbn [addon_loop].
    replace (i + N.of_nat (S (List.length pre)))%N
      with (i + 1 + N.of_nat (List.length pre))%N by lia.
    rewrite bind_assoc. apply bind_ext. intros addon_id o1.
    destruct (negb (truthy addon_id)).
    + rewrite bind_assoc. apply bind_ext. intros _ o2. apply IH.
    + rewrite bind_assoc. apply bind_ext. intros _ o2.
      rewrite bind_assoc. apply bind_ext. intros ok o3. apply IH.
Qed.

(** One iteration: what the loop does with its first entry. *)
Lemma loop_step addon rest i success repo cv out :
  loop (addon :: rest) i success repo cv out
  = match method_get addon (lit "id") with
    | Raised e => (Raise e, out)
    | Value addon_id =>
        if truthy addon_id then
          if accepts (progress_text py_str addon_id) then
            match validate repo addon_id cv
                    (out ++ [progress_line py_str addon_id]) with
            | (Value ok, out') =>
                loop rest (i + 1)%N (if negb ok then false else success)
                  repo cv out'
            | (Raised e, out') => (Raise e, out')
            end
          else
            (Raise (UnicodeEncodeError (progress_text py_str addon_id)), out)
        else
          if accepts (annotation
                        (lit "Addon entry at index " ++ str_of_Z (Z.of_N i)
                         ++ lit " missing 'id'")
                        (Some (index_json repo)) None None) then
            loop rest (i + 1)%N false repo cv
              (out ++ error_writes
                        (lit "Addon entry at index " ++ str_of_Z (Z.of_N i)
                         ++ lit " missing 'id'")
                        (Some (index_json repo)) None None)
          else
            (Raise (UnicodeEncodeError
                      (annotation
                         (lit "Addon entry at index "
                          ++ str_of_Z (Z.of_N i) ++ lit " missing 'id'")
                         (Some (index_json repo)) None None)), out)
    end.
Proof.
  cbn [addon_loop]. unfold bind at 1.
  destruct (method_get addon (lit "id")) as [addon_id|e]; cbn [eval];
    [|reflexivity].
  unfold next at 1. destruct (truthy addon_id); cbn [negb].
  - unfold bind at 1. unfold progress_text, progress_line.
    unfold print at 1.
    destruct (accepts _); [|reflexivity].
    unfold bind at 1, call.
    destruct (validate_addon_directory _ _ _ _ _ _ _ _ _ _ _)
      as [[ok|e] o]; reflexivity.
  - unfold bind at 1. unfold index_json.
    destruct (accepts (annotation _ _ _ _)) eqn:H.
    + rewrite (error_written stdout_encodes Z _ _ _ _ out H). reflexivity.
    + rewrite (error_refused stdout_encodes Z _ _ _ _ out H). reflexivity.
Qed.

(** Once [success] is false the loop cannot set it again. *)
Lemma loop_stays_failed entries i repo cv out :
  failed_or_raised (loop entries i false repo cv out).
Proof.
  revert i out. induction entries as [|addon rest IH]; intros i out.
  - reflexivity.
  - rewrite loop_step.
    destruct (method_get addon (lit "id")) as [addon_id|e]; [|exact I].
    destruct (truthy addon_id).
    + destruct (accepts (progress_text _ _)); [|exact I].
      destruct (validate_addon_directory _ _ _ _ _ _ _ _ _ _ _)
        as [[ok|e] o]; [|exact I].
      replace (if negb ok then false else false) with false
        by (destruct ok; reflexivity).
      apply IH.
    + destruct (accepts (annotation _ _ _ _)); [apply IH | exact I].
Qed.

Lemma loop_never_returns entries i success repo cv out r out' :
  loop entries i success repo cv out <> (Return r, out').
Proof.
  revert i success out.
  induction entries as [|addon rest IH]; intros i success out.
  - discriminate.
  - rewrite loop_step.
    destruct (method_get addon (lit "id")) as [addon_id|e]; [|discriminate].
    destruct (truthy addon_id).
    + destruct (accepts (progress_text _ _)); [|discriminate].
      destruct (validate_addon_directory _ _ _ _ _ _ _ _ _ _ _)
        as [[ok|e] o]; [apply IH | discriminate].
    + destruct (accepts (annotation _ _ _ _)); [apply IH | discriminate].
Qed.

(** After a loop that ended with [success] false, or that an exception
    left, the process ends with exit code 1. *)
Lemma failed_loop_exits_1 (m : body Z bool) out :
  failed_or_raised (m out) ->
  exit_code (fst (run (success <- m ;; conclude stdout_encodes success) out))
  = 1%Z.
Proof.
  unfold failed_or_raised, run, bind at 1.
  destruct (m out) as [[b|r|e] o]; cbn [fst]; intro H.
  - subst b. unfold conclude. cbn [negb]. unfold bind at 1. unfold bind at 1.
    destruct (print_outcome stdout_encodes Z (lit "Validation FAILED.") o)
      as [[_ ->] | [_ ->]]; reflexivity.
  - contradiction.
  - reflexivity.
Qed.

Lemma loop_after_prefix pre rest success repo cv out0 out1 :
  loop pre 0%N true repo cv out0 = (Next success, out1) ->
  loop (pre ++ rest) 0%N true repo cv out0
  = loop rest (N.of_nat (List.length pre)) success repo cv out1.
Proof.
  intro Hpre. rewrite loop_app. unfold bind. rewrite Hpre. reflexivity.
Qed.

Lemma run_congr (m m' : body Z bool) (k : bool -> body Z unit) out out' :
  m out = m' out' ->
  run (success <- m ;; k success) out = run (success <- m' ;; k success) out'.
Proof. intro H. unfold run, bind. rewrite H. reflexivity. Qed.

Lemma failed_or_raised_app pre rest repo cv out :
  (forall success out1,
      loop pre 0%N true repo cv out = (Next success, out1) ->
      failed_or_raised
        (loop rest (N.of_nat (List.length pre)) success repo cv out1)) ->
  failed_or_raised (loop (pre ++ rest) 0%N true repo cv out).
Proof.
  intro H. rewrite loop_app. unfold bind. cbn [N.add].
  destruct (loop pre 0%N true repo cv out) as [[success|r|e] out1] eqn:Hpre.
  - apply (H success out1 eq_refl).
  - exfalso. exact (loop_never_returns pre 0%N true repo cv out r out1 Hpre).
  - exact I.
Qed.

(** An entry without a truthy [id] leaves [success] false. *)
Lemma entry_without_id_fails d rest i success repo cv out :
  truthy (get_or_none d (lit "id")) = false ->
  failed_or_raised (loop (PDict d :: rest) i success repo cv out).
Proof.
  intro H. rewrite loop_step. cbn [method_get]. rewrite H.
  destruct (accepts (annotation _ _ _ _)); [apply loop_stays_failed | exact I].
Qed.

Lemma loop_skips_entry d rest i success repo cv out :
  truthy (get_or_none d (lit "id")) = false ->
  accepts (annotation_line
             (lit "Addon entry at index " ++ str_of_Z (Z.of_N i)
              ++ lit " missing 'id'")
             (index_json repo)) = true ->
  loop (PDict d :: rest) i success repo cv out
  = loop rest (i + 1)%N false repo cv
      (out ++ located_error
                (lit "Addon entry at index " ++ str_of_Z (Z.of_N i)
                 ++ lit " missing 'id'")
                (index_json repo)).
Proof.
  intros H Henc. cbn [addon_loop].
  unfold bind at 1, eval, next. cbn [method_get]. rewrite H. cbn [negb].
  unfold bind at 1. fold (index_json repo).
  rewrite (error_located stdout_encodes Z _ _ out
             (index_json_not_empty repo) Henc).
  reflexivity.
Qed.

(** An entry whose directory is missing leaves [success] false. *)
Lemma missing_directory_fails d s rest i success repo cv out :
  get_or_none d (lit "id") = PStr s ->
  path_isdir fs (addon_dir repo s) = false ->
  failed_or_raised (loop (PDict d :: rest) i success repo cv out).
Proof.
  intros Hid Hdir. rewrite loop_step. cbn [method_get]. rewrite Hid.
  destruct (truthy (PStr s)).
  - destruct (accepts (progress_text _ _)); [|exact I].
    pose proof (validate_no_directory_fails stdout_encodes xid_start
                  xid_continue py_str str_exn V version fs repo s cv
                  (out ++ [progress_line py_str (PStr s)]) Hdir) as Hv.
    destruct (validate_addon_directory _ _ _ _ _ _ _ _ _ _ _)
      as [[[|]|e] o]; cbn [fst negb] in *.
    + contradiction Hv. reflexivity.
    + apply loop_stays_failed.
    + exact I.
  - destruct (accepts (annotation _ _ _ _)); [apply loop_stays_failed | exact I].
Qed.

Lemma loop_missing_directory d (s : pystr) rest i success repo cv out :
  get_or_none d (lit "id") = PStr s -> s <> [] ->
  path_isdir fs (addon_dir repo s) = false ->
  accepts (progress_text py_str (PStr s)) = true ->
  accepts (annotation_line
             (lit "Directory not found for addon '" ++ s ++ lit "'")
             (addon_dir repo s)) = true ->
  loop (PDict d :: rest) i success repo cv out
  = loop rest (i + 1)%N false repo cv
      ((out ++ [progress_line py_str (PStr s)])
         ++ located_error
              (lit "Directory not found for addon '" ++ s ++ lit "'")
              (addon_dir repo s)).
Proof.
  intros Hid Hs Hdir Hp Henc. cbn [addon_loop].
  unfold bind at 1, eval, next. cbn [method_get]. rewrite Hid.
  destruct s as [|c s]; [contradiction|]. cbn [truthy negb].
  unfold bind at 1. unfold progress_text in Hp.
  rewrite (print_written stdout_encodes Z _ out Hp).
  unfold bind at 1, call.
  rewrite (validate_no_directory stdout_encodes xid_start xid_continue py_str
             str_exn V version fs repo (c :: s) cv _
             ltac:(discriminate) Hdir Henc).
  reflexivity.
Qed.

(** A run whose loop ends with [success] false, or is left by an
    exception, ends with exit code 1. *)
Lemma exit_1_through_failure repo cv index entries out :
  fs (index_json repo) = Regular (Parsed (PDict index)) ->
  dict_get index (lit "addons") = Some (PList entries) ->
  (forall out0, failed_or_raised (loop entries 0%N true repo cv out0)) ->
  exit_code (fst (process repo cv out)) = 1%Z.
Proof.
  intros Hfs Hidx Hfail.
  destruct (forallb accepts (banner_lines repo cv)) eqn:Hb.
  - rewrite (process_loop repo cv index entries out Hb Hfs Hidx).
    apply failed_loop_exits_1. apply Hfail.
  - destruct (process_banner_refused repo cv out Hb) as [text [ws [-> _]]].
    reflexivity.
Qed.

(** *** The index loader, continued *)

(** X10: when [addons.json] is not valid JSON the run ends with exit code
    1 without validating any addon.  When standard output can encode the
    banner and the annotation, and line and column are not 0, the run
    prints its banner, reports one error and exits through [sys.exit(1)];
    the annotation is located at the index file, the line and the column:
    [::error file=F,line=L,col=C::Invalid JSON in addons.json: msg]. *)
Theorem index_invalid_json :
  forall repo cv e out,
    fs (index_json repo) = Regular (DecodeError e) ->
    exit_code (fst (process repo cv out)) = 1%Z
    /\ (jde_lineno e <> 0%Z -> jde_colno e <> 0%Z ->
        forallb accepts (banner_lines repo cv) = true ->
        accepts (lit "::error file=" ++ index_json repo
                 ++ lit ",line=" ++ str_of_Z (jde_lineno e)
                 ++ lit ",col=" ++ str_of_Z (jde_colno e)
                 ++ lit "::Invalid JSON in addons.json: " ++ jde_msg e)
        = true ->
        process repo cv out
        = (Exited 1,
           (out ++ banner repo cv)
             ++ [ (Stdout,
                   (lit "::error file=" ++ index_json repo
                    ++ lit ",line=" ++ str_of_Z (jde_lineno e)
                    ++ lit ",col=" ++ str_of_Z (jde_colno e)
                    ++ lit "::Invalid JSON in addons.json: " ++ jde_msg e)
                     ++ [LF]);
                  (Stderr,
                   (lit "ERROR: "
                    ++ lit "Invalid JSON in addons.json: " ++ jde_msg e)
                     ++ [LF]) ])).
Proof.
  intros repo cv e out H. split.
  - destruct (forallb accepts (banner_lines repo cv)) eqn:Hb.
    + rewrite (process_after_loader repo cv out Hb).
      rewrite (loader_invalid_json repo e _ H). apply reported_or_raised_ends.
    + destruct (process_banner_refused repo cv out Hb) as [text [ws [-> _]]].
      reflexivity.
  - intros Hl Hc Hb Henc.
    rewrite (process_after_loader repo cv out Hb).
    rewrite (loader_invalid_json repo e _ H).
    assert (Ha : annotation (lit "Invalid JSON in addons.json: " ++ jde_msg e)
                   (Some (index_json repo)) (Some (jde_lineno e))
                   (Some (jde_colno e))
                 = lit "::error file=" ++ index_json repo
                   ++ lit ",line=" ++ str_of_Z (jde_lineno e)
                   ++ lit ",col=" ++ str_of_Z (jde_colno e)
                   ++ lit "::Invalid JSON in addons.json: " ++ jde_msg e).
    { rewrite (annotation_full _ _ _ _ (index_json_not_empty repo) Hl Hc).
      reflexivity. }
    unfold error_and_return, error_writes. rewrite Ha, Henc. reflexivity.
Qed.

(** X11: an index that parses to an object without the key [addons], or
    with an [addons] value that is not a list, ends the run with exit
    code 1; no addon is validated.  When standard output can encode the
    banner and the annotation, the run reports the schema error, whose
    annotation is located at the index file, and exits through
    [sys.exit(1)]. *)
Theorem index_schema_error :
  forall repo cv index out,
    fs (index_json repo) = Regular (Parsed (PDict index)) ->
    (dict_get index (lit "addons") = None
     \/ exists v, dict_get index (lit "addons") = Some v
                  /\ isinstance_list v = false) ->
    exit_code (fst (process repo cv out)) = 1%Z
    /\ (forallb accepts (banner_lines repo cv) = true ->
        accepts (annotation_line
                   (lit "addons.json must contain a top-level 'addons' list")
                   (index_json repo)) = true ->
        process repo cv out
        = (Exited 1,
           (out ++ banner repo cv)
             ++ located_error
                  (lit "addons.json must contain a top-level 'addons' list")
                  (index_json repo))).
Proof.
  intros repo cv index out Hfs Hbad.
  assert (Hl : forall out0,
             loader repo out0
             = reported_or_raised
                 (lit "addons.json must contain a top-level 'addons' list")
                 (Some (index_json repo)) None None out0).
  { intro out0. rewrite (loader_parsed repo _ out0 Hfs).
    cbn [py_in subscript]. unfold dict_has.
    destruct Hbad as [-> | [v [-> Hv]]]; [reflexivity|].
    rewrite Hv. reflexivity. }
  split.
  - destruct (forallb accepts (banner_lines repo cv)) eqn:Hb.
    + rewrite (process_after_loader repo cv out Hb), Hl.
      apply reported_or_raised_ends.
    + destruct (process_banner_refused repo cv out Hb) as [text [ws [-> _]]].
      reflexivity.
  - intros Hb Henc.
    rewrite (process_after_loader repo cv out Hb), Hl.
    rewrite (reported_located _ _ _ (index_json_not_empty repo) Henc).
    reflexivity.
Qed.

(** X12: an index that parses to something other than an object is not
    rejected as such.  Once the banner is printed, a number, a boolean or
    [null] ends the run with an uncaught [TypeError] at the [in] test; so
    does an array that holds the string ["addons"], at the subscript.  An
    array without that element gets the schema error, whose annotation is
    located at the index file, and exit code 1, when standard output can
    encode the annotation. *)
Theorem index_not_an_object :
  forall repo cv v out,
    fs (index_json repo) = Regular (Parsed v) ->
    forallb accepts (banner_lines repo cv) = true ->
    (isinstance_dict v = false -> isinstance_list v = false ->
     isinstance_str v = false ->
     process repo cv out = (Traceback TypeError, out ++ banner repo cv))
    /\ (forall l, v = PList l -> In (PStr (lit "addons")) l ->
        process repo cv out = (Traceback TypeError, out ++ banner repo cv))
    /\ (forall l, v = PList l -> ~ In (PStr (lit "addons")) l ->
        accepts (annotation_line
                   (lit "addons.json must contain a top-level 'addons' list")
                   (index_json repo)) = true ->
        process repo cv out
        = (Exited 1,
           (out ++ banner repo cv)
             ++ located_error
                  (lit "addons.json must contain a top-level 'addons' list")
                  (index_json repo))).
Proof.
  intros repo cv v out Hfs Hb.
  rewrite (process_after_loader repo cv out Hb), (loader_parsed repo _ _ Hfs).
  split; [|split].
  - intros Hd Hl Hs. destruct v; try discriminate; reflexivity.
  - intros l -> Hin. cbn [py_in subscript].
    apply list_has_str in Hin. rewrite Hin. reflexivity.
  - intros l -> Hin Henc. cbn [py_in subscript].
    rewrite (list_lacks_str _ _ Hin).
    rewrite (reported_located _ _ _ (index_json_not_empty repo) Henc).
    reflexivity.
Qed.

Lemma reported_or_raised_outcome (message path : pystr) line col out :
  path <> [] ->
  match reported_or_raised message (Some path) line col out with
  | (Value v, out') =>
      v = PNone
      /\ exists rest,
          out' = out ++ [ (Stdout,
                           (lit "::error file=" ++ path ++ rest
                            ++ lit "::" ++ message) ++ [LF]);
                          (Stderr, (lit "ERROR: " ++ message) ++ [LF]) ]
  | (Raised _, out') => out' = out
  end.
Proof.
  intro Hne. unfold error_and_return.
  destruct (accepts _); [|reflexivity].
  split; [reflexivity|].
  destruct (annotation_shape message path line col Hne) as [rest Hrest].
  exists rest. unfold error_writes. rewrite Hrest. reflexivity.
Qed.

Lemma loader_outcome repo out :
  match loader repo out with
  | (Value v, out') =>
      (v = PNone
       /\ exists message rest,
           out' = out ++ [ (Stdout,
                            (lit "::error file=" ++ index_json repo ++ rest
                             ++ lit "::" ++ message) ++ [LF]);
                           (Stderr, (lit "ERROR: " ++ message) ++ [LF]) ])
      \/ (exists index entries,
             v = PDict index
             /\ dict_get index (lit "addons") = Some (PList entries)
             /\ fs (index_json repo) = Regular (Parsed v)
             /\ out' = out)
  | (Raised _, out') => out' = out
  end.
Proof.
  assert (Hrep : forall message line col,
             match reported_or_raised message (Some (index_json repo))
                     line col out with
             | (Value v, out') =>
                 (v = PNone
                  /\ exists message rest,
                      out' = out ++ [ (Stdout,
                                       (lit "::error file=" ++ index_json repo
                                        ++ rest ++ lit "::" ++ message)
                                         ++ [LF]);
                                      (Stderr,
                                       (lit "ERROR: " ++ message) ++ [LF]) ])
                 \/ (exists index entries,
                        v = PDict index
                        /\ dict_get index (lit "addons") = Some (PList entries)
                        /\ fs (index_json repo) = Regular (Parsed v)
                        /\ out' = out)
             | (Raised _, out') => out' = out
             end).
  { intros message line col.
    pose proof (reported_or_raised_outcome message (index_json repo) line col
                  out (index_json_not_empty repo)) as H.
    destruct (reported_or_raised _ _ _ _ _) as [[v|e] o]; [|exact H].
    destruct H as [-> [rest ->]]. left. split; [reflexivity|].
    exists message, rest. reflexivity. }
  destruct (fs (index_json repo)) as [| |[v|e|e]] eqn:Hfs.
  - rewrite (loader_missing repo out Hfs). apply Hrep.
  - rewrite (proj1 (loader_unreadable repo out) Hfs). reflexivity.
  - rewrite (loader_parsed repo v out Hfs).
    destruct (py_in (lit "addons") v) as [[|]|e] eqn:Hin.
    + destruct (subscript v (lit "addons")) as [addons|e] eqn:Hsub;
        [|reflexivity].
      destruct (isinstance_list addons) eqn:Hl; [|apply Hrep].
      right. destruct v; try discriminate Hsub.
      cbn [subscript] in Hsub.
      destruct (dict_get entries (lit "addons")) as [a|] eqn:Hget;
        [|discriminate Hsub].
      inversion Hsub; subst a.
      destruct addons; try discriminate Hl.
      exists entries, items. repeat split; auto.
    + apply Hrep.
    + reflexivity.
  - rewrite (loader_invalid_json repo e out Hfs). apply Hrep.
  - rewrite (proj2 (loader_unreadable repo out) e Hfs). reflexivity.
Qed.

(** X13: the loader returns a document only when [addons.json] parses to
    an object whose [addons] is a list, and then it writes nothing; when it
    returns [None] it has reported exactly one error, whose annotation
    starts with [::error file=] and the path of the index file and ends
    with [::] and the message; and when an exception leaves it, it has
    written nothing. *)
Theorem loader_postcondition :
  forall repo out,
    match loader repo out with
    | (Value v, out') =>
        (v = PNone
         /\ exists message rest,
             out' = out ++ [ (Stdout,
                              (lit "::error file=" ++ index_json repo ++ rest
                               ++ lit "::" ++ message) ++ [LF]);
                             (Stderr, (lit "ERROR: " ++ message) ++ [LF]) ])
        \/ (exists index entries,
               v = PDict index
               /\ dict_get index (lit "addons") = Some (PList entries)
               /\ fs (index_json repo) = Regular (Parsed v)
               /\ out' = out)
    | (Raised _, out') => out' = out
    end.
Proof. exact loader_outcome. Qed.

(** *** The loop and the exit code *)

Lemma reports_error_app a b :
  reports_error (a ++ b) = reports_error a || reports_error b.
Proof. apply existsb_app. Qed.

Lemma error_writes_report message file line col :
  reports_error (error_writes message file line col) = true.
Proof. reflexivity. Qed.

Lemma banner_reports_nothing repo cv : reports_error (banner repo cv) = false.
Proof. unfold banner. destruct (some_str_truthy cv); reflexivity. Qed.

(** When the loop ends with [success] false, either it started so or it
    reported an error. *)
Lemma loop_failure_reported entries i success repo cv out :
  match loop entries i success repo cv out with
  | (Next b, out') =>
      exists ws, out' = out ++ ws
                 /\ (b = false -> success = false \/ reports_error ws = true)
  | (Return _, _) => False
  | (Raise _, _) => True
  end.
Proof.
  revert i success out.
  induction entries as [|addon rest IH]; intros i success out.
  - cbn. exists []. rewrite app_nil_r. auto.
  - rewrite loop_step.
    destruct (method_get addon (lit "id")) as [addon_id|e]; [|exact I].
    destruct (truthy addon_id).
    + destruct (accepts (progress_text py_str addon_id)); [|exact I].
      pose proof (validate_output stdout_encodes xid_start xid_continue py_str
                    str_exn V version fs repo addon_id cv
                    (out ++ [progress_line py_str addon_id])) as Hv.
      destruct (validate_addon_directory _ _ _ _ _ _ _ _ _ _ _)
        as [[[|]|e] o3]; [| |exact I].
      * subst o3. cbn [negb].
        specialize (IH (i + 1)%N success
                      (out ++ [progress_line py_str addon_id])).
        destruct (loop rest _ _ _ _ _) as [[b|r|e] o]; auto.
        destruct IH as [ws [-> Hb]].
        eexists. rewrite <- app_assoc. split; [reflexivity|].
        intro Hf. destruct (Hb Hf) as [Hs|Hr]; [left; exact Hs|].
        right. rewrite reports_error_app, Hr. apply orb_true_r.
      * destruct Hv as [message [file ->]]. cbn [negb].
        specialize (IH (i + 1)%N false
                      ((out ++ [progress_line py_str addon_id])
                         ++ error_writes message file None None)).
        destruct (loop rest _ _ _ _ _) as [[b|r|e] o]; auto.
        destruct IH as [ws [-> _]].
        eexists. rewrite <- !app_assoc. split; [reflexivity|].
        intros _. right. rewrite !reports_error_app.
        rewrite error_writes_report. rewrite orb_true_r. reflexivity.
    + destruct (accepts (annotation _ _ _ _)); [|exact I].
      specialize (IH (i + 1)%N false
                    (out ++ error_writes
                              (lit "Addon entry at index "
                               ++ str_of_Z (Z.of_N i) ++ lit " missing 'id'")
                              (Some (index_json repo)) None None)).
      destruct (loop rest _ _ _ _ _) as [[b|r|e] o]; auto.
      destruct IH as [ws [-> _]].
      eexists. rewrite <- app_assoc. split; [reflexivity|].
      intros _. right. rewrite reports_error_app. reflexivity.
Qed.

(** How a run that got to the loop can end through [sys.exit]. *)
Lemma run_loop_exited entries repo cv out code out' :
  run (success <- loop entries 0%N true repo cv ;;
       conclude stdout_encodes success) out
  = (Exited code, out') ->
  exists b o,
    loop entries 0%N true repo cv out = (Next b, o)
    /\ ((b = true /\ code = 0%Z
         /\ accepts (lit "Validation SUCCESSFUL.") = true
         /\ out' = o ++ [summary_successful])
        \/ (b = false /\ code = 1%Z /\ out' = o ++ [summary_failed])).
Proof.
  unfold run, bind at 1. intro H.
  destruct (loop entries 0%N true repo cv out) as [[b|r|e] o] eqn:Hloop.
  - exists b, o. split; [reflexivity|].
    unfold conclude in H. destruct b; cbn [negb] in H.
    + left. unfold bind at 1, next at 1 in H. unfold bind at 1 in H.
      unfold print in H.
      destruct (accepts (lit "Validation SUCCESSFUL.")); [|discriminate H].
      cbn in H. inversion H. repeat split; reflexivity.
    + right. unfold bind at 1 in H. unfold bind at 1 in H.
      unfold print at 1 in H.
      destruct (accepts (lit "Validation FAILED.")); [|discriminate H].
      cbn in H. inversion H. repeat split; reflexivity.
  - exfalso. exact (loop_never_returns entries 0%N true repo cv out r o Hloop).
  - discriminate H.
Qed.

(** X14: the run never fails silently.  When it ends through [sys.exit]
    the exit code is 0 or 1, and with exit code 1 at least one error was
    written to the error stream during the run. *)
Theorem failure_is_reported :
  forall repo cv out code out',
    process repo cv out = (Exited code, out') ->
    code = 0%Z
    \/ (code = 1%Z
        /\ exists ws, out' = out ++ ws /\ reports_error ws = true).
Proof.
  intros repo cv out code out' H.
  destruct (forallb accepts (banner_lines repo cv)) eqn:Hb.
  2:{ destruct (process_banner_refused repo cv out Hb) as [text [ws [E _]]].
      rewrite E in H. discriminate H. }
  rewrite (process_after_loader repo cv out Hb) in H.
  pose proof (loader_outcome repo (out ++ banner repo cv)) as Hl.
  destruct (loader repo (out ++ banner repo cv)) as [[db|e] o];
    [|discriminate H].
  destruct Hl as [[-> [message [rest ->]]]
                 |[index [entries [-> [Hget [Hfs ->]]]]]].
  - cbn [truthy] in H. inversion H; subst. right. split; [reflexivity|].
    eexists. rewrite <- app_assoc. split; [reflexivity|].
    rewrite !reports_error_app. apply orb_true_r.
  - assert (Ht : truthy (PDict index) = true)
      by (destruct index; [discriminate Hget | reflexivity]).
    rewrite Ht in H. unfold run in H.
    unfold bind at 1, eval at 1 in H. cbn [subscript] in H.
    rewrite Hget in H. unfold next at 1 in H.
    unfold bind at 1, eval at 1 in H. cbn [iterate] in H.
    unfold next at 1 in H.
    destruct (run_loop_exited entries repo cv _ code out' H)
      as [b [o' [Hloop [[_ [-> _]] | [-> [-> ->]]]]]]; [left; reflexivity|].
    right. split; [reflexivity|].
    pose proof (loop_failure_reported entries 0%N true repo cv
                  (out ++ banner repo cv)) as Hrep.
    rewrite Hloop in Hrep. destruct Hrep as [ws [-> Hws]].
    destruct (Hws eq_refl) as [Hs|Hr]; [discriminate Hs|].
    eexists. rewrite <- !app_assoc. split; [reflexivity|].
    rewrite !reports_error_app, Hr. rewrite orb_true_r. reflexivity.
Qed.

Lemma validate_true_anywhere repo addon_id cv out :
  fst (validate repo addon_id cv []) = Value true ->
  validate repo addon_id cv out = (Value true, out).
Proof.
  intro H.
  rewrite (framed_validate stdout_encodes xid_start xid_continue py_str
             str_exn V version fs repo addon_id cv out).
  pose proof (validate_output stdout_encodes xid_start xid_continue py_str
                str_exn V version fs repo addon_id cv []) as Hv.
  destruct (validate repo addon_id cv []) as [r w]. cbn [fst snd] in *.
  subst r. subst w. rewrite app_nil_r. reflexivity.
Qed.

Lemma loop_all_valid entries i success repo cv out :
  Forall (valid repo cv) entries ->
  Forall (fun e => accepts (progress_text py_str (id_of_entry e)) = true)
         entries ->
  loop entries i success repo cv out
  = (Next success,
     out ++ List.map (fun e => progress_line py_str (id_of_entry e)) entries).
Proof.
  intros H Hp. revert i out.
  induction H as [|entry rest [Hd [Ht Hv]] _ IH]; intros i out.
  - cbn. rewrite app_nil_r. reflexivity.
  - inversion Hp as [|? ? Hp1 Hp2]; subst.
    destruct entry; try discriminate Hd. cbn [id_of_entry] in Ht, Hv, Hp1.
    rewrite loop_step. cbn [method_get List.map id_of_entry].
    rewrite Ht, Hp1.
    rewrite (validate_true_anywhere repo _ cv _ Hv). cbn [negb].
    rewrite (IH Hp2). rewrite <- app_assoc. reflexivity.
Qed.

Lemma loop_success_valid entries i success repo cv out out' :
  loop entries i success repo cv out = (Next true, out') ->
  Forall (valid repo cv) entries
  /\ Forall (fun e => accepts (progress_text py_str (id_of_entry e)) = true)
            entries.
Proof.
  revert i success out.
  induction entries as [|entry rest IH]; intros i success out H;
    [split; constructor|].
  rewrite loop_step in H.
  destruct entry; cbn [method_get] in H; try discriminate H.
  destruct (truthy (get_or_none entries (lit "id"))) eqn:Ht.
  - destruct (accepts (progress_text py_str (get_or_none entries (lit "id"))))
      eqn:Hp; [|discriminate H].
    pose proof (framed_validate stdout_encodes xid_start xid_continue py_str
                  str_exn V version fs repo (get_or_none entries (lit "id"))
                  cv (out ++ [progress_line py_str
                                (get_or_none entries (lit "id"))])) as Hf.
    destruct (validate_addon_directory _ _ _ _ _ _ _ _ _ _ _)
      as [[[|]|e] o3] eqn:Hv; try discriminate H.
    + cbn [negb] in H. destruct (IH _ _ _ H) as [IH1 IH2].
      split; constructor; auto.
      repeat split; [exact Ht|]. cbn [id_of_entry].
      inversion Hf. reflexivity.
    + cbn [negb] in H. exfalso.
      pose proof (loop_stays_failed rest (i + 1)%N repo cv o3) as Hs.
      unfold failed_or_raised in Hs. rewrite H in Hs. discriminate Hs.
  - destruct (accepts (annotation _ _ _ _)); [|discriminate H].
    exfalso.
    pose proof (loop_stays_failed rest (i + 1)%N repo cv
                  (out ++ error_writes
                            (lit "Addon entry at index "
                             ++ str_of_Z (Z.of_N i) ++ lit " missing 'id'")
                            (Some (index_json repo)) None None)) as Hs.
    unfold failed_or_raised in Hs. rewrite H in Hs. discriminate Hs.
Qed.

(** X15: a run whose arguments parsed exits with code 0 exactly when
    the index loads (an object with a list of addons), every entry is an
    object with a truthy [id] whose addon validates, and standard output
    can encode the banner, the progress line of every entry and the
    closing line.  The output of such a run is the banner, one progress
    line per entry in the order of the index, and the closing line
    [Validation SUCCESSFUL.]; an empty list of addons is such a run. *)
Theorem exit_0_iff_all_valid :
  forall repo cv out,
    (fst (process repo cv out) = Exited 0
     <-> exists index entries,
           fs (index_json repo) = Regular (Parsed (PDict index))
           /\ dict_get index (lit "addons") = Some (PList entries)
           /\ Forall (valid repo cv) entries
           /\ printable repo cv entries)
    /\ (forall index entries,
           fs (index_json repo) = Regular (Parsed (PDict index)) ->
           dict_get index (lit "addons") = Some (PList entries) ->
           Forall (valid repo cv) entries ->
           printable repo cv entries ->
           process repo cv out
           = (Exited 0,
              (out ++ banner repo cv)
                ++ List.map (fun e => progress_line py_str (id_of_entry e))
                     entries
                ++ [summary_successful])).
Proof.
  intros repo cv out.
  assert (Hrun : forall index entries,
             fs (index_json repo) = Regular (Parsed (PDict index)) ->
             dict_get index (lit "addons") = Some (PList entries) ->
             Forall (valid repo cv) entries ->
             printable repo cv entries ->
             process repo cv out
             = (Exited 0,
                (out ++ banner repo cv)
                  ++ List.map (fun e => progress_line py_str (id_of_entry e))
                       entries
                  ++ [summary_successful])).
  { intros index entries Hfs Hget Hall [Hb [Hp Hs]].
    rewrite (process_loop repo cv index entries out Hb Hfs Hget).
    unfold run, bind at 1. rewrite (loop_all_valid _ _ _ _ _ _ Hall Hp).
    unfold conclude. cbn [negb]. unfold bind at 1, next.
    unfold bind at 1.
    rewrite (print_written stdout_encodes Z _ _ Hs).
    unfold summary_successful. rewrite <- app_assoc. reflexivity. }
  split; [split|exact Hrun].
  - intro H.
    destruct (forallb accepts (banner_lines repo cv)) eqn:Hb.
    2:{ destruct (process_banner_refused repo cv out Hb) as [text [ws [E _]]].
        rewrite E in H. discriminate H. }
    rewrite (process_after_loader repo cv out Hb) in H.
    pose proof (loader_outcome repo (out ++ banner repo cv)) as Hl.
    destruct (loader repo (out ++ banner repo cv)) as [[db|e] o];
      [|discriminate H].
    destruct Hl as [[-> _]|[index [entries [-> [Hget [Hfs ->]]]]]];
      [discriminate H|].
    exists index, entries. split; [exact Hfs|]. split; [exact Hget|].
    assert (Ht : truthy (PDict index) = true)
      by (destruct index; [discriminate Hget | reflexivity]).
    rewrite Ht in H. unfold run in H.
    unfold bind at 1, eval at 1 in H. cbn [subscript] in H.
    rewrite Hget in H. unfold next at 1 in H.
    unfold bind at 1, eval at 1 in H. cbn [iterate] in H.
    unfold next at 1 in H.
    destruct (run (success <- loop entries 0%N true repo cv ;;
                   conclude stdout_encodes success) (out ++ banner repo cv))
      as [st o] eqn:Hr.
    unfold run in Hr. rewrite Hr in H. cbn [fst] in H. subst st.
    destruct (run_loop_exited entries repo cv _ 0%Z o Hr)
      as [b [o' [Hloop [[-> [_ [Hs _]]] | [_ [Hc _]]]]]]; [|discriminate Hc].
    destruct (loop_success_valid _ _ _ _ _ _ _ Hloop) as [Hv Hp].
    split; [exact Hv|]. repeat split; assumption.
  - intros [index [entries [Hfs [Hget [Hall Hp]]]]].
    rewrite (Hrun index entries Hfs Hget Hall Hp). reflexivity.
Qed.

(** X16: once the banner is printed and the loop has got to it, an index
    entry that is not an object ends the run at that entry with an
    uncaught [AttributeError]; an entry whose [id] is truthy but not a
    string ends it with an uncaught [TypeError] after its progress line,
    when standard output can encode that line.  Neither is reported as an
    error, the entries after it are not looked at, and no closing line is
    printed. *)
Theorem malformed_entry_ends_run :
  forall repo cv index pre entry post out success out1,
    fs (index_json repo) = Regular (Parsed (PDict index)) ->
    dict_get index (lit "addons") = Some (PList (pre ++ entry :: post)) ->
    forallb accepts (banner_lines repo cv) = true ->
    loop pre 0%N true repo cv (out ++ banner repo cv) = (Next success, out1) ->
    (isinstance_dict entry = false ->
     process repo cv out = (Traceback AttributeError, out1))
    /\ (isinstance_dict entry = true ->
        truthy (id_of_entry entry) = true ->
        isinstance_str (id_of_entry entry) = false ->
        accepts (progress_text py_str (id_of_entry entry)) = true ->
        process repo cv out
        = (Traceback TypeError,
           out1 ++ [progress_line py_str (id_of_entry entry)])).
Proof.
  intros repo cv index pre entry post out success out1 Hfs Hget Hb Hpre.
  rewrite (process_loop repo cv index _ out Hb Hfs Hget).
  assert (Hrun : run (success' <- loop (pre ++ entry :: post) 0%N true repo cv ;;
                      conclude stdout_encodes success') (out ++ banner repo cv)
                 = run (success' <-
                          loop (entry :: post) (N.of_nat (List.length pre))
                            success repo cv ;;
                        conclude stdout_encodes success') out1).
  { apply run_congr.
    apply (loop_after_prefix pre _ success repo cv _ out1 Hpre). }
  rewrite Hrun. clear Hrun.
  split.
  - intro Hd. unfold run, bind at 1. rewrite loop_step.
    destruct entry; try discriminate Hd; reflexivity.
  - intros Hd Ht Hs Hp. unfold run, bind at 1. rewrite loop_step.
    destruct entry; try discriminate Hd.
    cbn [id_of_entry] in Ht, Hs, Hp. cbn [method_get id_of_entry].
    rewrite Ht, Hp.
    rewrite (validate_id_not_string stdout_encodes xid_start xid_continue
               py_str str_exn V version fs repo _ cv _ Hs).
    reflexivity.
Qed.

(** A run in which one entry fails with the writes [ws] and every other
    entry is valid: every entry is gone through, and the run ends with
    the closing line of failure and exit code 1. *)
Lemma process_one_failure repo cv index pre entry post ws out :
  fs (index_json repo) = Regular (Parsed (PDict index)) ->
  dict_get index (lit "addons") = Some (PList (pre ++ entry :: post)) ->
  forallb accepts (banner_lines repo cv) = true ->
  Forall (valid repo cv) pre ->
  Forall (fun e => accepts (progress_text py_str (id_of_entry e)) = true)
         pre ->
  Forall (valid repo cv) post ->
  Forall (fun e => accepts (progress_text py_str (id_of_entry e)) = true)
         post ->
  (forall i success out1,
      loop (entry :: post) i success repo cv out1
      = loop post (i + 1)%N false repo cv (out1 ++ ws)) ->
  accepts (lit "Validation FAILED.") = true ->
  process repo cv out
  = (Exited 1,
     (out ++ banner repo cv)
       ++ List.map (fun e => progress_line py_str (id_of_entry e)) pre
       ++ ws
       ++ List.map (fun e => progress_line py_str (id_of_entry e)) post
       ++ [summary_failed]).
Proof.
  intros Hfs Hidx Hb Hpre Hppre Hpost Hppost Hstep Hf.
  rewrite (process_loop repo cv index _ out Hb Hfs Hidx).
  unfold run, bind at 1.
  rewrite (loop_after_prefix pre _ true repo cv _ _
             (loop_all_valid pre 0%N true repo cv _ Hpre Hppre)).
  rewrite Hstep.
  rewrite (loop_all_valid post _ false repo cv _ Hpost Hppost).
  unfold conclude. cbn [negb]. unfold bind at 1. unfold bind at 1.
  rewrite (print_written stdout_encodes Z _ _ Hf).
  unfold summary_failed. cbn [sys_exit return_].
  repeat rewrite <- app_assoc. reflexivity.
Qed.

(** C10 (amended): at an index entry that is an object whose [id] is
    absent or falsy, the loop reports the error
    [Addon entry at index <i> missing 'id'], whose annotation is located
    at the index file, when standard output can encode the annotation; it
    does not call [validate_addon_directory] for the entry and goes on
    with the remaining entries with [success] false.  A run over an index
    that loads and holds such an entry ends with exit code 1.  When the
    banner is printed and the loop gets to the entry after the entries
    [pre] (none of them ended the run with an exception), the reported
    position is their number and the rest of the run is the loop over the
    entries [post]; when every other entry is valid and standard output
    can encode every line, the run goes through all of them and exits
    through [sys.exit(1)] after the closing line of failure. *)
Theorem entry_without_id :
  forall repo cv index pre d post out,
    fs (index_json repo) = Regular (Parsed (PDict index)) ->
    dict_get index (lit "addons") = Some (PList (pre ++ PDict d :: post)) ->
    truthy (get_or_none d (lit "id")) = false ->
    (forall rest i success out1,
        accepts (annotation_line
                   (lit "Addon entry at index " ++ str_of_Z (Z.of_N i)
                    ++ lit " missing 'id'")
                   (index_json repo)) = true ->
        loop (PDict d :: rest) i success repo cv out1
        = loop rest (i + 1)%N false repo cv
            (out1 ++ located_error
                       (lit "Addon entry at index " ++ str_of_Z (Z.of_N i)
                        ++ lit " missing 'id'")
                       (index_json repo)))
    /\ exit_code (fst (process repo cv out)) = 1%Z
    /\ (forall success out1,
           forallb accepts (banner_lines repo cv) = true ->
           loop pre 0%N true repo cv (out ++ banner repo cv)
           = (Next success, out1) ->
           accepts (annotation_line
                      (lit "Addon entry at index "
                       ++ str_of_Z (Z.of_N (N.of_nat (List.length pre)))
                       ++ lit " missing 'id'")
                      (index_json repo)) = true ->
           process repo cv out
           = run (success' <-
                    loop post (N.of_nat (List.length pre) + 1)%N false
                      repo cv ;;
                  conclude stdout_encodes success')
                 (out1 ++ located_error
                            (lit "Addon entry at index "
                             ++ str_of_Z (Z.of_N (N.of_nat (List.length pre)))
                             ++ lit " missing 'id'")
                            (index_json repo)))
    /\ (forallb accepts (banner_lines repo cv) = true ->
        Forall (valid repo cv) pre ->
        Forall (fun e => accepts (progress_text py_str (id_of_entry e)) = true)
               pre ->
        Forall (valid repo cv) post ->
        Forall (fun e => accepts (progress_text py_str (id_of_entry e)) = true)
               post ->
        accepts (annotation_line
                   (lit "Addon entry at index "
                    ++ str_of_Z (Z.of_N (N.of_nat (List.length pre)))
                    ++ lit " missing 'id'")
                   (index_json repo)) = true ->
        accepts (lit "Validation FAILED.") = true ->
        process repo cv out
        = (Exited 1,
           (out ++ banner repo cv)
             ++ List.map (fun e => progress_line py_str (id_of_entry e)) pre
             ++ located_error
                  (lit "Addon entry at index "
                   ++ str_of_Z (Z.of_N (N.of_nat (List.length pre)))
                   ++ lit " missing 'id'")
                  (index_json repo)
             ++ List.map (fun e => progress_line py_str (id_of_entry e)) post
             ++ [summary_failed])).
Proof.
  intros repo cv index pre d post out Hfs Hidx Hid.
  split; [|split; [|split]].
  - intros rest i success out1 Henc.
    apply (loop_skips_entry d rest i success repo cv out1 Hid Henc).
  - apply (exit_1_through_failure repo cv index _ out Hfs Hidx).
    intro out0. apply failed_or_raised_app. intros success out1 _.
    apply (entry_without_id_fails d post _ success repo cv out1 Hid).
  - intros success out1 Hb Hpre Henc.
    rewrite (process_loop repo cv index _ out Hb Hfs Hidx).
    apply run_congr.
    rewrite (loop_after_prefix pre _ success repo cv _ out1 Hpre).
    apply (loop_skips_entry d post _ success repo cv out1 Hid Henc).
  - intros Hb Hpre Hppre Hpost Hppost Henc Hf.
    rewrite (process_loop repo cv index _ out Hb Hfs Hidx).
    unfold run, bind at 1.
    rewrite (loop_after_prefix pre _ true repo cv _ _
               (loop_all_valid pre 0%N true repo cv _ Hpre Hppre)).
    rewrite (loop_skips_entry d post _ true repo cv _ Hid Henc).
    rewrite (loop_all_valid post _ false repo cv _ Hpost Hppost).
    unfold conclude. cbn [negb]. unfold bind at 1. unfold bind at 1.
    rewrite (print_written stdout_encodes Z _ _ Hf).
    unfold summary_failed. cbn [sys_exit return_].
    repeat rewrite <- app_assoc. reflexivity.
Qed.

(** C6 (amended): for an index entry that is an object whose [id] is a
    non-empty string [s] such that [os.path.join(repo, s)] is not a
    directory: [validate_addon_directory] reports the error
    [Directory not found for addon '<s>'], whose annotation is located at
    that path, and returns [False], when standard output can encode the
    annotation; the loop, once it has printed the progress line of the
    entry, goes on with the remaining entries with [success] false.  A
    run over an index that loads and holds such an entry ends with exit
    code 1, whatever the other entries are.  When the banner is printed
    and the loop gets to the entry after the entries [pre] (none of them
    ended the run with an exception), the rest of the run is the loop over
    the entries [post]; when every other entry is valid and standard
    output can encode every line, the run validates all of them and exits
    through [sys.exit(1)] after the closing line of failure. *)
Theorem missing_addon_directory :
  forall repo cv index pre d (s : pystr) post out,
    fs (index_json repo) = Regular (Parsed (PDict index)) ->
    dict_get index (lit "addons") = Some (PList (pre ++ PDict d :: post)) ->
    get_or_none d (lit "id") = PStr s -> s <> [] ->
    path_isdir fs (addon_dir repo s) = false ->
    (forall out1,
        accepts (annotation_line
                   (lit "Directory not found for addon '" ++ s ++ lit "'")
                   (addon_dir repo s)) = true ->
        validate repo (PStr s) cv out1
        = (Value false,
           out1 ++ located_error
                     (lit "Directory not found for addon '" ++ s ++ lit "'")
                     (addon_dir repo s)))
    /\ (forall rest i success out1,
           accepts (progress_text py_str (PStr s)) = true ->
           accepts (annotation_line
                      (lit "Directory not found for addon '" ++ s ++ lit "'")
                      (addon_dir repo s)) = true ->
           loop (PDict d :: rest) i success repo cv out1
           = loop rest (i + 1)%N false repo cv
               ((out1 ++ [progress_line py_str (PStr s)])
                  ++ located_error
                       (lit "Directory not found for addon '" ++ s ++ lit "'")
                       (addon_dir repo s)))
    /\ exit_code (fst (process repo cv out)) = 1%Z
    /\ (forall success out1,
           forallb accepts (banner_lines repo cv) = true ->
           loop pre 0%N true repo cv (out ++ banner repo cv)
           = (Next success, out1) ->
           accepts (progress_text py_str (PStr s)) = true ->
           accepts (annotation_line
                      (lit "Directory not found for addon '" ++ s ++ lit "'")
                      (addon_dir repo s)) = true ->
           process repo cv out
           = run (success' <-
                    loop post (N.of_nat (List.length pre) + 1)%N false
                      repo cv ;;
                  conclude stdout_encodes success')
                 ((out1 ++ [progress_line py_str (PStr s)])
                    ++ located_error
                         (lit "Directory not found for addon '" ++ s
                          ++ lit "'")
                         (addon_dir repo s)))
    /\ (forallb accepts (banner_lines repo cv) = true ->
        Forall (valid repo cv) pre ->
        Forall (fun e => accepts (progress_text py_str (id_of_entry e)) = true)
               pre ->
        Forall (valid repo cv) post ->
        Forall (fun e => accepts (progress_text py_str (id_of_entry e)) = true)
               post ->
        accepts (progress_text py_str (PStr s)) = true ->
        accepts (annotation_line
                   (lit "Directory not found for addon '" ++ s ++ lit "'")
                   (addon_dir repo s)) = true ->
        accepts (lit "Validation FAILED.") = true ->
        process repo cv out
        = (Exited 1,
           (out ++ banner repo cv)
             ++ List.map (fun e => progress_line py_str (id_of_entry e)) pre
             ++ (progress_line py_str (PStr s)
                 :: located_error
                      (lit "Directory not found for addon '" ++ s ++ lit "'")
                      (addon_dir repo s))
             ++ List.map (fun e => progress_line py_str (id_of_entry e)) post
             ++ [summary_failed])).
Proof.
  intros repo cv index pre d s post out Hfs Hidx Hid Hs Hdir.
  split; [|split; [|split; [|split]]].
  - intros out1 Henc.
    apply (validate_no_directory stdout_encodes xid_start xid_continue py_str
             str_exn V version fs repo s cv out1 Hs Hdir Henc).
  - intros rest i success out1 Hp Henc.
    apply (loop_missing_directory d s rest i success repo cv out1
             Hid Hs Hdir Hp Henc).
  - apply (exit_1_through_failure repo cv index _ out Hfs Hidx).
    intro out0. apply failed_or_raised_app. intros success out1 _.
    apply (missing_directory_fails d s post _ success repo cv out1 Hid Hdir).
  - intros success out1 Hb Hpre Hp Henc.
    rewrite (process_loop repo cv index _ out Hb Hfs Hidx).
    apply run_congr.
    rewrite (loop_after_prefix pre _ success repo cv _ out1 Hpre).
    apply (loop_missing_directory d s post _ success repo cv out1
             Hid Hs Hdir Hp Henc).
  - intros Hb Hpre Hppre Hpost Hppost Hp Henc Hf.
    apply (process_one_failure repo cv index pre (PDict d) post _ out
             Hfs Hidx Hb Hpre Hppre Hpost Hppost); [|exact Hf].
    intros i success out1.
    rewrite (loop_missing_directory d s post i success repo cv out1
               Hid Hs Hdir Hp Henc).
    rewrite <- app_assoc. reflexivity.
Qed.

End DriverProperties.

(* ================================================================= *)
(** ** The properties on the example repositories *)

Lemma latin1_tables_ascii : ascii_tables latin1_xid_start latin1_xid_continue.
Proof.
  intros c Hc. unfold is_ascii in Hc. apply N.ltb_lt in Hc.
  assert (E170 : N.eqb c 170 = false) by (apply N.eqb_neq; lia).
  assert (E181 : N.eqb c 181 = false) by (apply N.eqb_neq; lia).
  assert (E186 : N.eqb c 186 = false) by (apply N.eqb_neq; lia).
  assert (E183 : N.eqb c 183 = false) by (apply N.eqb_neq; lia).
  assert (R1 : in_range 192 214 c = false)
    by (unfold in_range; replace (N.leb 192 c) with false;
        [reflexivity | symmetry; apply N.leb_gt; lia]).
  assert (R2 : in_range 216 246 c = false)
    by (unfold in_range; replace (N.leb 216 c) with false;
        [reflexivity | symmetry; apply N.leb_gt; lia]).
  assert (R3 : in_range 248 255 c = false)
    by (unfold in_range; replace (N.leb 248 c) with false;
        [reflexivity | symmetry; apply N.leb_gt; lia]).
  unfold latin1_xid_continue, latin1_xid_start.
  rewrite E170, E181, E186, E183, R1, R2, R3.
  repeat rewrite orb_false_r. split; reflexivity.
Qed.

(** C8: the index entry [{"id": "a\nb"}] names no directory, and [main]
    reports it through [error] with the message
    [Directory not found for addon 'a\nb'] and the path [/repo/a\nb].
    The message and the path are printed as they are: the annotation
    takes three lines of standard output and the plain text two lines of
    the error stream, so the workflow command of the docstring
    ([::error file=...::message] on one line) is cut at the first line
    feed. *)
Theorem error_message_with_line_feed :
  @error utf8_strict unit
    (lit "Directory not found for addon 'a" ++ [LF] ++ lit "b'")
    (Some (lit "/repo/a" ++ [LF] ++ lit "b")) None None []
  = (Next tt,
     [ (Stdout,
        lit "::error file=/repo/a" ++ [LF]
        ++ lit "b::Directory not found for addon 'a" ++ [LF]
        ++ lit "b'" ++ [LF]);
       (Stderr,
        lit "ERROR: Directory not found for addon 'a" ++ [LF]
        ++ lit "b'" ++ [LF]) ])
  /\ List.map lines_of
       (snd (@error utf8_strict unit
               (lit "Directory not found for addon 'a" ++ [LF] ++ lit "b'")
               (Some (lit "/repo/a" ++ [LF] ++ lit "b")) None None []))
     = [3; 2]
  /\ snd (demo_process
            (demo_fs [entry (lit "a" ++ [LF] ++ lit "b")]
               (required_fields_of (PStr (lit "a"))) true) [])
     = [ (Stdout, lit "Validating repository at: /repo" ++ [LF]);
         (Stdout, lit "Validating addon: a" ++ [LF] ++ lit "b..." ++ [LF]);
         (Stdout,
          lit "::error file=/repo/a" ++ [LF]
          ++ lit "b::Directory not found for addon 'a" ++ [LF]
          ++ lit "b'" ++ [LF]);
         (Stderr,
          lit "ERROR: Directory not found for addon 'a" ++ [LF]
          ++ lit "b'" ++ [LF]);
         (Stdout, lit "Validation FAILED." ++ [LF]) ].
Proof. repeat split; vm_compute; reflexivity. Qed.



(** The domain [my_addon1] passes; the domain [1abc] is refused with the
    invalid-domain error at the manifest path. *)
Lemma domain_syntax_check_witness :
  (ascii_identifier (lit "my_addon1") = true
   /\ isidentifier latin1_xid_start latin1_xid_continue (lit "my_addon1")
      = true
   /\ passes (domain_validation utf8_strict latin1_xid_start
                latin1_xid_continue scalar_str
                (PDict (required_fields_of (PStr (lit "my_addon1"))))
                (manifest_json demo_repo (lit "a"))) [])
  /\ demo_validate true
       (demo_fs [] (required_fields_of (PStr (lit "1abc"))) true) None []
     = (Value false,
        [ (Stdout,
           lit "::error file=/repo/a/manifest.json::Invalid domain '1abc'. Must be a valid identifier (alphanumeric, underscore)."
             ++ [LF]);
          (Stderr,
           lit "ERROR: Invalid domain '1abc'. Must be a valid identifier (alphanumeric, underscore)."
             ++ [LF]) ]).
Proof.
  split.
  - destruct (domain_syntax_check utf8_strict latin1_xid_start
                latin1_xid_continue scalar_str demo_str_exn (list N)
                (demo_version true)
                (demo_fs [] (required_fields_of (PStr (lit "my_addon1"))) true)
                demo_repo (lit "a") None
                (required_fields_of (PStr (lit "my_addon1")))
                (lit "my_addon1") []
                latin1_tables_ascii
                (conj eq_refl eq_refl) eq_refl eq_refl)
      as [Hpass [_ [_ [Hascii _]]]].
    split; [reflexivity|]. split.
    + apply Hascii. reflexivity.
    + apply Hpass. reflexivity.
  - destruct (domain_syntax_check utf8_strict latin1_xid_start
                latin1_xid_continue scalar_str demo_str_exn (list N)
                (demo_version true)
                (demo_fs [] (required_fields_of (PStr (lit "1abc"))) true)
                demo_repo (lit "a") None
                (required_fields_of (PStr (lit "1abc")))
                (lit "1abc") []
                latin1_tables_ascii
                (conj eq_refl eq_refl) eq_refl eq_refl)
      as [_ [Hfail _]].
    apply Hfail; reflexivity.
Defined.

(** C1, as stated, fails on a non-ASCII letter: the domain ["é"] (U+00E9)
    does not match the pattern, and the addon validates without any
    error.  It also fails on the domain [\ud800], a lone surrogate that
    [json.load] builds from that escape: [isidentifier] refuses it, and
    the function raises at the [print] of the annotation instead of
    returning [False]. *)
Lemma non_ascii_domain_accepted :
  (ascii_identifier [233%N] = false
   /\ demo_validate true
        (demo_fs [] (required_fields_of (PStr [233%N])) true) None []
      = (Value true, []))
  /\ (isidentifier latin1_xid_start latin1_xid_continue [55296%N] = false
      /\ raises_encode_error
           (demo_validate true
              (demo_fs [] (required_fields_of (PStr [55296%N])) true)
              None [])).
Proof.
  repeat split; try reflexivity. eexists. vm_compute. reflexivity.
Qed.



(** The manifests [{"domain": 5, ...}] and
    [{..., "implementations": ["integration.py"]}] raise. *)
Lemma uncaught_attribute_errors_witness :
  demo_validate true
    (demo_fs [] (required_fields_of (PInt 5)) true) None []
  = (Raised AttributeError, [])
  /\ demo_validate true
       (demo_fs []
          (manifest_with
             [(lit "implementations", PList [PStr (lit "integration.py")])])
          true)
       None []
     = (Raised AttributeError, []).
Proof.
  split.
  - apply (proj1 (uncaught_attribute_errors utf8_strict latin1_xid_start
                    latin1_xid_continue scalar_str demo_str_exn (list N)
                    (demo_version true)
                    (demo_fs [] (required_fields_of (PInt 5)) true)
                    demo_repo (lit "a") None
                    (required_fields_of (PInt 5)) []
                    (conj eq_refl eq_refl) eq_refl)
             (PInt 5));
      reflexivity.
  - apply (proj2 (uncaught_attribute_errors utf8_strict latin1_xid_start
                    latin1_xid_continue scalar_str demo_str_exn (list N)
                    (demo_version true)
                    (demo_fs []
                       (manifest_with
                          [(lit "implementations",
                            PList [PStr (lit "integration.py")])])
                       true)
                    demo_repo (lit "a") None
                    (manifest_with
                       [(lit "implementations",
                         PList [PStr (lit "integration.py")])])
                    []
                    (conj eq_refl eq_refl) eq_refl)
             (lit "a") (PList [PStr (lit "integration.py")]));
      try reflexivity.
    discriminate.
Defined.

(** A [min_core_version] that does not parse, against core 1.0.0. *)
Lemma unparseable_min_core_version_witness :
  demo_validate true
    (demo_fs []
       (manifest_with [(lit "min_core_version", PStr (lit "latest"))]) true)
    (Some (lit "1.0.0")) []
  = (Value false,
     [ (Stdout,
        lit "::error file=/repo/a/manifest.json::Version comparison failed for 'a' (min: latest, core: 1.0.0): Invalid version: 'latest'"
          ++ [LF]);
       (Stderr,
        lit "ERROR: Version comparison failed for 'a' (min: latest, core: 1.0.0): Invalid version: 'latest'"
          ++ [LF]) ]).
Proof.
  apply (proj1 (unparseable_min_core_version utf8_strict latin1_xid_start
                  latin1_xid_continue scalar_str demo_str_exn (list N)
                  (demo_version true)
                  (demo_fs []
                     (manifest_with
                        [(lit "min_core_version", PStr (lit "latest"))]) true)
                  demo_repo (lit "a")
                  (manifest_with
                     [(lit "min_core_version", PStr (lit "latest"))])
                  []
                  (conj (conj eq_refl eq_refl)
                     (conj eq_refl
                        (conj (ex_intro _ (lit "a") (conj eq_refl eq_refl))
                           eq_refl))))
           dotted_versions (lit "1.0.0")
           (lit "Invalid version: '" ++ lit "latest" ++ lit "'")).
  - reflexivity.
  - reflexivity.
  - discriminate.
  - reflexivity.
  - reflexivity.
Defined.

(** C2, as stated, fails: the empty string does not parse as a version,
    yet a manifest with [min_core_version] [""] validates against core
    1.0.0 without any error; and without the version capability the
    unparseable ["latest"] is skipped as well.  With the capability, the
    [min_core_version] [\ud800] does not parse, and the function raises at
    the [print] of the annotation instead of returning [False]. *)
Lemma unparseable_min_core_version_skipped :
  parse dotted_versions (PStr []) = inr (lit "Invalid version: ''")
  /\ demo_validate true
       (demo_fs [] (manifest_with [(lit "min_core_version", PStr [])]) true)
       (Some (lit "1.0.0")) []
     = (Value true, [])
  /\ demo_validate false
       (demo_fs []
          (manifest_with [(lit "min_core_version", PStr (lit "latest"))])
          true)
       (Some (lit "1.0.0")) []
     = (Value true, [])
  /\ raises_encode_error
       (demo_validate true
          (demo_fs []
             (manifest_with [(lit "min_core_version", PStr [55296%N])]) true)
          (Some (lit "1.0.0")) []).
Proof.
  repeat split; try reflexivity. eexists. vm_compute. reflexivity.
Qed.





(** The index [[{"id": "a"}, {}, {"id": "a"}]]: the second entry has no
    [id]; the addon after it is still validated. *)
Lemma entry_without_id_witness :
  demo_process
    (demo_fs [entry (lit "a"); PDict []; entry (lit "a")]
       (required_fields_of (PStr (lit "a"))) true) []
  = (Exited 1,
     [ (Stdout, lit "Validating repository at: /repo" ++ [LF]);
       (Stdout, lit "Validating addon: a..." ++ [LF]);
       (Stdout,
        lit "::error file=/repo/addons.json::Addon entry at index 1 missing 'id'"
          ++ [LF]);
       (Stderr, lit "ERROR: Addon entry at index 1 missing 'id'" ++ [LF]);
       (Stdout, lit "Validating addon: a..." ++ [LF]);
       (Stdout, lit "Validation FAILED." ++ [LF]) ]).
Proof.
  destruct (entry_without_id utf8_strict latin1_xid_start latin1_xid_continue
              scalar_str demo_str_exn (list N) (demo_version true)
              (demo_fs [entry (lit "a"); PDict []; entry (lit "a")]
                 (required_fields_of (PStr (lit "a"))) true)
              demo_repo None
              [(lit "addons", PList [entry (lit "a"); PDict []; entry (lit "a")])]
              [entry (lit "a")] [] [entry (lit "a")] []
              eq_refl eq_refl eq_refl)
    as [_ [_ [_ Hrun]]].
  apply Hrun; try reflexivity;
    repeat constructor.
Defined.

(** C10, as stated, fails on the index [[{"id": 7}, {}]]: the first entry
    ends the run with an uncaught [TypeError], and the missing [id] of the
    second entry is never reported. *)
Lemma missing_id_not_reported :
  demo_process
    (demo_fs [PDict [(lit "id", PInt 7)]; PDict []]
       (required_fields_of (PStr (lit "a"))) true) []
  = (Traceback TypeError,
     [ (Stdout, lit "Validating repository at: /repo" ++ [LF]);
       (Stdout, lit "Validating addon: 7..." ++ [LF]) ]).
Proof. reflexivity. Qed.

(** The index [[{"id": "a"}, {"id": "gone"}, {"id": "a"}]]: there is no
    directory [gone]; the addon after it is still validated. *)
Lemma missing_addon_directory_witness :
  demo_process
    (demo_fs [entry (lit "a"); entry (lit "gone"); entry (lit "a")]
       (required_fields_of (PStr (lit "a"))) true) []
  = (Exited 1,
     [ (Stdout, lit "Validating repository at: /repo" ++ [LF]);
       (Stdout, lit "Validating addon: a..." ++ [LF]);
       (Stdout, lit "Validating addon: gone..." ++ [LF]);
       (Stdout,
        lit "::error file=/repo/gone::Directory not found for addon 'gone'"
          ++ [LF]);
       (Stderr, lit "ERROR: Directory not found for addon 'gone'" ++ [LF]);
       (Stdout, lit "Validating addon: a..." ++ [LF]);
       (Stdout, lit "Validation FAILED." ++ [LF]) ]).
Proof.
  destruct (missing_addon_directory utf8_strict latin1_xid_start
              latin1_xid_continue scalar_str demo_str_exn (list N)
              (demo_version true)
              (demo_fs [entry (lit "a"); entry (lit "gone"); entry (lit "a")]
                 (required_fields_of (PStr (lit "a"))) true)
              demo_repo None
              [(lit "addons",
                PList [entry (lit "a"); entry (lit "gone"); entry (lit "a")])]
              [entry (lit "a")] [(lit "id", PStr (lit "gone"))] (lit "gone")
              [entry (lit "a")] []
              eq_refl eq_refl eq_refl ltac:(discriminate) eq_refl)
    as [_ [_ [_ [_ Hrun]]]].
  apply Hrun; try reflexivity;
    repeat constructor.
Defined.

(** C6, as stated, fails on the index [[3, {"id": "gone"}]]: the first
    entry ends the run with an uncaught [AttributeError], and the missing
    directory [gone] is never reported.  On the index
    [[{"id": "gone"}, {"id": "a"}, {"id": "a"}]] with the manifest
    [{"domain": 5, ...}] the missing directory is reported, but the second
    entry ends the run and the third is not validated.  On the index
    [[{"id": "\udc80"}]], whose directory is missing, the run ends at the
    [print] of the progress line and reports nothing. *)
Lemma missing_directory_not_reported :
  path_isdir
    (demo_fs [PInt 3; entry (lit "gone")]
       (required_fields_of (PStr (lit "a"))) true)
    (addon_dir demo_repo (lit "gone")) = false
  /\ demo_process
       (demo_fs [PInt 3; entry (lit "gone")]
          (required_fields_of (PStr (lit "a"))) true) []
     = (Traceback AttributeError,
        [ (Stdout, lit "Validating repository at: /repo" ++ [LF]) ])
  /\ demo_process
       (demo_fs [entry (lit "gone"); entry (lit "a"); entry (lit "a")]
          (required_fields_of (PInt 5)) true) []
     = (Traceback AttributeError,
        [ (Stdout, lit "Validating repository at: /repo" ++ [LF]);
          (Stdout, lit "Validating addon: gone..." ++ [LF]);
          (Stdout,
           lit "::error file=/repo/gone::Directory not found for addon 'gone'"
             ++ [LF]);
          (Stderr, lit "ERROR: Directory not found for addon 'gone'" ++ [LF]);
          (Stdout, lit "Validating addon: a..." ++ [LF]) ])
  /\ path_isdir
       (demo_fs [entry undecodable_id]
          (required_fields_of (PStr (lit "a"))) true)
       (addon_dir demo_repo undecodable_id) = false
  /\ demo_process
       (demo_fs [entry undecodable_id]
          (required_fields_of (PStr (lit "a"))) true) []
     = (Traceback
          (UnicodeEncodeError
             (lit "Validating addon: " ++ undecodable_id ++ lit "...")),
        [ (Stdout, lit "Validating repository at: /repo" ++ [LF]) ]).
Proof. repeat split; reflexivity. Qed.

(** The end-to-end example of the specification: the index
    [{"addons": [{"id": "a"}]}], a complete manifest with
    [implementations] [{"python": "integration.py"}] and the file
    [a/integration.py] give exit code 0 and the closing line
    [Validation SUCCESSFUL.]. *)
Example end_to_end_success :
  demo_process
    (demo_fs [entry (lit "a")]
       (manifest_with
          [(lit "implementations",
            PDict [(lit "python", PStr (lit "integration.py"))])])
       true) []
  = (Exited 0,
     [ (Stdout, lit "Validating repository at: /repo" ++ [LF]);
       (Stdout, lit "Validating addon: a..." ++ [LF]);
       (Stdout, lit "Validation SUCCESSFUL." ++ [LF]) ]).
Proof. reflexivity. Qed.

(* ================================================================= *)
(** ** The further properties on example repositories *)

(** An addon directory without a manifest, and one whose manifest is not
    JSON. *)
Lemma manifest_missing_or_invalid_witness :
  demo_validate true (fs_of [(lit "/repo/a", Directory)]) None []
  = (Value false,
     [ (Stdout,
        lit "::error file=/repo/a/manifest.json::Missing manifest.json for addon 'a'"
          ++ [LF]);
       (Stderr, lit "ERROR: Missing manifest.json for addon 'a'" ++ [LF]) ])
  /\ demo_validate true
       (fs_of [(lit "/repo/a", Directory);
               (lit "/repo/a/manifest.json", python_source)]) None []
     = (Value false,
        [ (Stdout,
           lit "::error file=/repo/a/manifest.json::Invalid JSON in manifest.json for 'a': Expecting value: line 1 column 1 (char 0)"
             ++ [LF]);
          (Stderr,
           lit "ERROR: Invalid JSON in manifest.json for 'a': Expecting value: line 1 column 1 (char 0)"
             ++ [LF]) ]).
Proof.
  split.
  - apply (proj1 (manifest_missing_or_invalid utf8_strict latin1_xid_start
                    latin1_xid_continue scalar_str demo_str_exn (list N)
                    (demo_version true)
                    (fs_of [(lit "/repo/a", Directory)])
                    demo_repo (lit "a") None [] eq_refl));
      reflexivity.
  - apply (proj2 (manifest_missing_or_invalid utf8_strict latin1_xid_start
                    latin1_xid_continue scalar_str demo_str_exn (list N)
                    (demo_version true)
                    (fs_of [(lit "/repo/a", Directory);
                            (lit "/repo/a/manifest.json", python_source)])
                    demo_repo (lit "a") None [] eq_refl)
             {| jde_msg := lit "Expecting value"; jde_lineno := 1;
                jde_colno := 1;
                jde_str := lit "Expecting value: line 1 column 1 (char 0)" |});
      reflexivity.
Defined.

(** A directory named [manifest.json]. *)
Lemma manifest_unreadable_raises_witness :
  demo_validate true
    (fs_of [(lit "/repo/a", Directory);
            (lit "/repo/a/manifest.json", Directory)]) None []
  = (Raised OSError, []).
Proof.
  apply (proj1 (manifest_unreadable_raises utf8_strict latin1_xid_start
                  latin1_xid_continue scalar_str demo_str_exn (list N)
                  (demo_version true)
                  (fs_of [(lit "/repo/a", Directory);
                          (lit "/repo/a/manifest.json", Directory)])
                  demo_repo (lit "a") None [] eq_refl)).
  reflexivity.
Defined.

(** [{"python": "integration.py", "go": "main.go"}] without [main.go]. *)
Lemma implementation_files_checked_witness :
  demo_validate true
    (demo_fs []
       (manifest_with
          [(lit "implementations",
            PDict [(lit "python", PStr (lit "integration.py"));
                   (lit "go", PStr (lit "main.go"))])])
       true)
    None []
  = (Value false,
     [ (Stdout,
        lit "::error file=/repo/a/main.go::Implementation file 'main.go' for 'go' not found in 'a'"
          ++ [LF]);
       (Stderr,
        lit "ERROR: Implementation file 'main.go' for 'go' not found in 'a'"
          ++ [LF]) ]).
Proof.
  apply (proj1 (implementation_files_checked utf8_strict latin1_xid_start
                  latin1_xid_continue scalar_str demo_str_exn (list N)
                  (demo_version true)
                  (demo_fs []
                     (manifest_with
                        [(lit "implementations",
                          PDict [(lit "python", PStr (lit "integration.py"));
                                 (lit "go", PStr (lit "main.go"))])])
                     true)
                  demo_repo (lit "a") None
                  (manifest_with
                     [(lit "implementations",
                       PDict [(lit "python", PStr (lit "integration.py"));
                              (lit "go", PStr (lit "main.go"))])])
                  (lit "a")
                  [(lit "python", PStr (lit "integration.py"));
                   (lit "go", PStr (lit "main.go"))]
                  []
                  (conj eq_refl eq_refl) eq_refl eq_refl eq_refl eq_refl
                  ltac:(discriminate))
           [(lit "python", PStr (lit "integration.py"))]
           (lit "go") (lit "main.go") []).
  - reflexivity.
  - constructor; [|constructor].
    exists (lit "integration.py"). split; reflexivity.
  - discriminate.
  - reflexivity.
  - reflexivity.
Defined.

(** [{"python": 5}]. *)
Lemma implementation_filename_not_string_witness :
  demo_validate true
    (demo_fs []
       (manifest_with [(lit "implementations", PDict [(lit "python", PInt 5)])])
       true)
    None []
  = (Raised TypeError, []).
Proof.
  apply (implementation_filename_not_string utf8_strict latin1_xid_start
           latin1_xid_continue scalar_str demo_str_exn (list N)
           (demo_version true)
           (demo_fs []
              (manifest_with
                 [(lit "implementations", PDict [(lit "python", PInt 5)])])
              true)
           demo_repo (lit "a") None
           (manifest_with
              [(lit "implementations", PDict [(lit "python", PInt 5)])])
           (lit "a") [(lit "python", PInt 5)] [] (lit "python") (PInt 5) [] []
           (conj eq_refl eq_refl) eq_refl eq_refl eq_refl eq_refl eq_refl).
  - constructor.
  - reflexivity.
Defined.

(** [{"implementations": {}}] without [integration.py]. *)
Lemma implementations_falsy_or_not_dict_witness :
  demo_validate true
    (demo_fs [] (manifest_with [(lit "implementations", PDict [])]) false)
    None []
  = (Value false,
     [ (Stdout,
        lit "::error file=/repo/a/manifest.json::manifest.json in 'a' missing 'implementations' map, and no implicit 'integration.py' found."
          ++ [LF]);
       (Stderr,
        lit "ERROR: manifest.json in 'a' missing 'implementations' map, and no implicit 'integration.py' found."
          ++ [LF]) ]).
Proof.
  apply (proj2 (implementations_falsy_or_not_dict utf8_strict
                  latin1_xid_start latin1_xid_continue scalar_str
                  demo_str_exn (list N) (demo_version true)
                  (demo_fs []
                     (manifest_with [(lit "implementations", PDict [])])
                     false)
                  demo_repo (lit "a") None
                  (manifest_with [(lit "implementations", PDict [])])
                  (lit "a") (PDict []) []
                  (conj eq_refl eq_refl) eq_refl eq_refl eq_refl eq_refl)).
  - left. reflexivity.
  - reflexivity.
  - reflexivity.
Defined.

(** [{"sh": "/bin/sh"}]: with [/bin/sh] on the file system and nothing
    else in the addon directory the addon validates; without it the error
    is located at [/bin/sh]. *)
Lemma implementation_file_absolute_witness :
  demo_validate true
    (fs_of [(lit "/repo/a", Directory);
            (lit "/repo/a/manifest.json",
             Regular (Parsed (PDict
               (manifest_with
                  [(lit "implementations",
                    PDict [(lit "sh", PStr (lit "/bin/sh"))])]))));
            (lit "/bin/sh", python_source)])
    None []
  = (Value true, [])
  /\ demo_validate true
       (demo_fs []
          (manifest_with
             [(lit "implementations",
               PDict [(lit "sh", PStr (lit "/bin/sh"))])])
          true)
       None []
     = (Value false,
        [ (Stdout,
           lit "::error file=/bin/sh::Implementation file '/bin/sh' for 'sh' not found in 'a'"
             ++ [LF]);
          (Stderr,
           lit "ERROR: Implementation file '/bin/sh' for 'sh' not found in 'a'"
             ++ [LF]) ]).
Proof.
  split.
  - unfold demo_validate.
    rewrite (proj1 (implementation_file_absolute utf8_strict latin1_xid_start
                      latin1_xid_continue scalar_str demo_str_exn (list N)
                      (demo_version true)
                      (fs_of [(lit "/repo/a", Directory);
                              (lit "/repo/a/manifest.json",
                               Regular (Parsed (PDict
                                 (manifest_with
                                    [(lit "implementations",
                                      PDict [(lit "sh",
                                              PStr (lit "/bin/sh"))])]))));
                              (lit "/bin/sh", python_source)])
                      demo_repo (lit "a") None
                      (manifest_with
                         [(lit "implementations",
                           PDict [(lit "sh", PStr (lit "/bin/sh"))])])
                      (lit "a") (lit "sh") (lit "/bin/sh") []
                      (conj eq_refl eq_refl) eq_refl eq_refl eq_refl eq_refl
                      eq_refl)).
    + reflexivity.
    + discriminate.
  - apply (proj2 (implementation_file_absolute utf8_strict latin1_xid_start
                    latin1_xid_continue scalar_str demo_str_exn (list N)
                    (demo_version true)
                    (demo_fs []
                       (manifest_with
                          [(lit "implementations",
                            PDict [(lit "sh", PStr (lit "/bin/sh"))])])
                       true)
                    demo_repo (lit "a") None
                    (manifest_with
                       [(lit "implementations",
                         PDict [(lit "sh", PStr (lit "/bin/sh"))])])
                    (lit "a") (lit "sh") (lit "/bin/sh") []
                    (conj eq_refl eq_refl) eq_refl eq_refl eq_refl eq_refl
                    eq_refl));
      reflexivity.
Defined.

(** [min_core_version] 2.0.0 against the core version ["latest"]. *)
Lemma core_version_unparseable_witness :
  demo_validate true
    (demo_fs []
       (manifest_with [(lit "min_core_version", PStr (lit "2.0.0"))]) true)
    (Some (lit "latest")) []
  = (Value false,
     [ (Stdout,
        lit "::error file=/repo/a/manifest.json::Version comparison failed for 'a' (min: 2.0.0, core: latest): Invalid version: 'latest'"
          ++ [LF]);
       (Stderr,
        lit "ERROR: Version comparison failed for 'a' (min: 2.0.0, core: latest): Invalid version: 'latest'"
          ++ [LF]) ]).
Proof.
  apply (core_version_unparseable utf8_strict latin1_xid_start
           latin1_xid_continue scalar_str demo_str_exn (list N)
           (demo_version true)
           (demo_fs []
              (manifest_with [(lit "min_core_version", PStr (lit "2.0.0"))])
              true)
           demo_repo (lit "a")
           (manifest_with [(lit "min_core_version", PStr (lit "2.0.0"))])
           [] dotted_versions (lit "latest") [2; 0; 0]%N
           (lit "Invalid version: '" ++ lit "latest" ++ lit "'")
           (conj (conj eq_refl eq_refl)
              (conj eq_refl
                 (conj (ex_intro _ (lit "a") (conj eq_refl eq_refl))
                    eq_refl)))
           eq_refl eq_refl ltac:(discriminate) eq_refl eq_refl).
  reflexivity.
Defined.

(** The manifests [5], [["domain", "version"]] and
    [["domain", "name", "version"]]. *)
Lemma manifest_not_an_object_witness :
  demo_validate true
    (fs_of [(lit "/repo/a", Directory);
            (lit "/repo/a/manifest.json", Regular (Parsed (PInt 5)))])
    None []
  = (Raised TypeError, [])
  /\ demo_validate true
       (fs_of [(lit "/repo/a", Directory);
               (lit "/repo/a/manifest.json",
                Regular (Parsed (PList [PStr (lit "domain");
                                        PStr (lit "version")])))])
       None []
     = (Value false,
        [ (Stdout,
           lit "::error file=/repo/a/manifest.json::manifest.json missing required field 'name'"
             ++ [LF]);
          (Stderr,
           lit "ERROR: manifest.json missing required field 'name'"
             ++ [LF]) ])
  /\ demo_validate true
       (fs_of [(lit "/repo/a", Directory);
               (lit "/repo/a/manifest.json",
                Regular (Parsed (PList [PStr (lit "domain");
                                        PStr (lit "name");
                                        PStr (lit "version")])))])
       None []
     = (Raised AttributeError, []).
Proof.
  split; [|split].
  - apply (proj1 (manifest_not_an_object utf8_strict latin1_xid_start
                    latin1_xid_continue scalar_str demo_str_exn (list N)
                    (demo_version true)
                    (fs_of [(lit "/repo/a", Directory);
                            (lit "/repo/a/manifest.json",
                             Regular (Parsed (PInt 5)))])
                    demo_repo (lit "a") None (PInt 5) [] eq_refl eq_refl));
      reflexivity.
  - apply (proj1 (proj2 (manifest_not_an_object utf8_strict latin1_xid_start
                    latin1_xid_continue scalar_str demo_str_exn (list N)
                    (demo_version true)
                    (fs_of [(lit "/repo/a", Directory);
                            (lit "/repo/a/manifest.json",
                             Regular (Parsed (PList [PStr (lit "domain");
                                                     PStr (lit "version")])))])
                    demo_repo (lit "a") None
                    (PList [PStr (lit "domain"); PStr (lit "version")])
                    [] eq_refl eq_refl))
             [PStr (lit "domain"); PStr (lit "version")] (lit "name")
             eq_refl).
    + right. left. split; [left; reflexivity|]. split; [|reflexivity].
      intros [H|[H|[]]]; discriminate H.
    + reflexivity.
  - apply (proj2 (proj2 (manifest_not_an_object utf8_strict latin1_xid_start
                    latin1_xid_continue scalar_str demo_str_exn (list N)
                    (demo_version true)
                    (fs_of [(lit "/repo/a", Directory);
                            (lit "/repo/a/manifest.json",
                             Regular (Parsed (PList [PStr (lit "domain");
                                                     PStr (lit "name");
                                                     PStr (lit "version")])))])
                    demo_repo (lit "a") None
                    (PList [PStr (lit "domain"); PStr (lit "name");
                            PStr (lit "version")])
                    [] eq_refl eq_refl))
             [PStr (lit "domain"); PStr (lit "name"); PStr (lit "version")]
             eq_refl); cbn; auto.
Defined.

(** An index file that is not JSON. *)
Lemma index_invalid_json_witness :
  demo_process (fs_of [(lit "/repo/addons.json", python_source)]) []
  = (Exited 1,
     [ (Stdout, lit "Validating repository at: /repo" ++ [LF]);
       (Stdout,
        lit "::error file=/repo/addons.json,line=1,col=1::Invalid JSON in addons.json: Expecting value"
          ++ [LF]);
       (Stderr,
        lit "ERROR: Invalid JSON in addons.json: Expecting value"
          ++ [LF]) ]).
Proof.
  apply (proj2 (index_invalid_json utf8_strict latin1_xid_start
                  latin1_xid_continue scalar_str demo_str_exn (list N)
                  (demo_version true)
                  (fs_of [(lit "/repo/addons.json", python_source)])
                  demo_repo None
                  {| jde_msg := lit "Expecting value"; jde_lineno := 1;
                     jde_colno := 1;
                     jde_str :=
                       lit "Expecting value: line 1 column 1 (char 0)" |}
                  [] eq_refl));
    try reflexivity; discriminate.
Defined.

(** The index [{"addons": {}}]. *)
Lemma index_schema_error_witness :
  demo_process
    (fs_of [(lit "/repo/addons.json",
             Regular (Parsed (PDict [(lit "addons", PDict [])])))]) []
  = (Exited 1,
     [ (Stdout, lit "Validating repository at: /repo" ++ [LF]);
       (Stdout,
        lit "::error file=/repo/addons.json::addons.json must contain a top-level 'addons' list"
          ++ [LF]);
       (Stderr,
        lit "ERROR: addons.json must contain a top-level 'addons' list"
          ++ [LF]) ]).
Proof.
  apply (proj2 (index_schema_error utf8_strict latin1_xid_start
                  latin1_xid_continue scalar_str demo_str_exn (list N)
                  (demo_version true)
                  (fs_of [(lit "/repo/addons.json",
                           Regular (Parsed
                                      (PDict [(lit "addons", PDict [])])))])
                  demo_repo None [(lit "addons", PDict [])] [] eq_refl
                  (or_intror (ex_intro _ (PDict []) (conj eq_refl eq_refl)))));
    reflexivity.
Defined.

(** The index [["addons"]]. *)
Lemma index_not_an_object_witness :
  demo_process
    (fs_of [(lit "/repo/addons.json",
             Regular (Parsed (PList [PStr (lit "addons")])))]) []
  = (Traceback TypeError,
     [ (Stdout, lit "Validating repository at: /repo" ++ [LF]) ]).
Proof.
  apply (proj1 (proj2 (index_not_an_object utf8_strict latin1_xid_start
                         latin1_xid_continue scalar_str demo_str_exn (list N)
                         (demo_version true)
                         (fs_of [(lit "/repo/addons.json",
                                  Regular (Parsed
                                             (PList [PStr (lit "addons")])))])
                         demo_repo None (PList [PStr (lit "addons")]) []
                         eq_refl eq_refl))
           [PStr (lit "addons")] eq_refl).
  left. reflexivity.
Defined.

(** A run over the index [[{"id": "a"}, {"id": "gone"}]]: exit code 1 and
    an error on the error stream. *)
Lemma failure_is_reported_witness :
  exists ws,
    snd (demo_process
           (demo_fs [entry (lit "a"); entry (lit "gone")]
              (required_fields_of (PStr (lit "a"))) true) [])
    = [] ++ ws
    /\ reports_error ws = true.
Proof.
  destruct (failure_is_reported utf8_strict latin1_xid_start
              latin1_xid_continue scalar_str demo_str_exn (list N)
              (demo_version true)
              (demo_fs [entry (lit "a"); entry (lit "gone")]
                 (required_fields_of (PStr (lit "a"))) true)
              demo_repo None [] 1%Z
              (snd (demo_process
                      (demo_fs [entry (lit "a"); entry (lit "gone")]
                         (required_fields_of (PStr (lit "a"))) true) []))
              eq_refl)
    as [H|[_ H]].
  - discriminate H.
  - exact H.
Defined.

(** A run over the index [[{"id": "a"}, {"id": "a"}]] with a valid addon
    [a]. *)
Lemma exit_0_iff_all_valid_witness :
  demo_process
    (demo_fs [entry (lit "a"); entry (lit "a")]
       (required_fields_of (PStr (lit "a"))) true) []
  = (Exited 0,
     [ (Stdout, lit "Validating repository at: /repo" ++ [LF]);
       (Stdout, lit "Validating addon: a..." ++ [LF]);
       (Stdout, lit "Validating addon: a..." ++ [LF]);
       (Stdout, lit "Validation SUCCESSFUL." ++ [LF]) ]).
Proof.
  apply (proj2 (exit_0_iff_all_valid utf8_strict latin1_xid_start
                  latin1_xid_continue scalar_str demo_str_exn (list N)
                  (demo_version true)
                  (demo_fs [entry (lit "a"); entry (lit "a")]
                     (required_fields_of (PStr (lit "a"))) true)
                  demo_repo None [])
           [(lit "addons", PList [entry (lit "a"); entry (lit "a")])]
           [entry (lit "a"); entry (lit "a")] eq_refl eq_refl).
  - repeat constructor.
  - repeat constructor.
Defined.

(** The index [[{"id": "a"}, 3]] and the index [[{"id": 7}]]. *)
Lemma malformed_entry_ends_run_witness :
  demo_process
    (demo_fs [entry (lit "a"); PInt 3]
       (required_fields_of (PStr (lit "a"))) true) []
  = (Traceback AttributeError,
     [ (Stdout, lit "Validating repository at: /repo" ++ [LF]);
       (Stdout, lit "Validating addon: a..." ++ [LF]) ])
  /\ demo_process
       (demo_fs [PDict [(lit "id", PInt 7)]]
          (required_fields_of (PStr (lit "a"))) true) []
     = (Traceback TypeError,
        [ (Stdout, lit "Validating repository at: /repo" ++ [LF]);
          (Stdout, lit "Validating addon: 7..." ++ [LF]) ]).
Proof.
  split.
  - apply (proj1 (malformed_entry_ends_run utf8_strict latin1_xid_start
                    latin1_xid_continue scalar_str demo_str_exn (list N)
                    (demo_version true)
                    (demo_fs [entry (lit "a"); PInt 3]
                       (required_fields_of (PStr (lit "a"))) true)
                    demo_repo None
                    [(lit "addons", PList [entry (lit "a"); PInt 3])]
                    [entry (lit "a")] (PInt 3) [] [] true _
                    eq_refl eq_refl eq_refl eq_refl)).
    reflexivity.
  - apply (proj2 (malformed_entry_ends_run utf8_strict latin1_xid_start
                    latin1_xid_continue scalar_str demo_str_exn (list N)
                    (demo_version true)
                    (demo_fs [PDict [(lit "id", PInt 7)]]
                       (required_fields_of (PStr (lit "a"))) true)
                    demo_repo None
                    [(lit "addons", PList [PDict [(lit "id", PInt 7)]])]
                    [] (PDict [(lit "id", PInt 7)]) [] [] true
                    ([] ++ banner demo_repo None)
                    eq_refl eq_refl eq_refl eq_refl));
      reflexivity.
Defined.
